(** * smart-router: the routing core, embedded and verified

    A shallow embedding of the three classes of the routing core

      - [TaskAnalyzer]  (analyzer.js)      -- module [Analyzer]
      - [CostTracker]   (cost-tracker.js)  -- module [Tracker]
      - [ModelRouter]   (router.js)        -- module [Router]

    together with the few pieces of JavaScript semantics they rely on
    (module [Js]).  The definitions come first; the properties follow in
    [JsFacts], [AnalyzerFacts], [TrackerFacts] and [RouterFacts], and
    further ones in [AnalyzerProps], [TrackerProps], [RouterProps] and
    [AnalyzerCase].

    Modelling conventions.

      - A prompt is a sequence of code units, [list ascii]; the model
        covers the code units 0..255.  All patterns and keywords of the
        analyzer are ASCII, and neither [toLowerCase] nor the
        case-insensitive canonicalisation of regular expressions maps a
        code unit above 127 into a keyword or pattern of the analyzer.
      - JavaScript numbers that are counts (lengths, token counts, scores,
        attempt numbers, ids) are [Z].  Costs are doubles in the source;
        they are exact rationals here, extended with the two infinities
        and NaN so that a division by zero is visible ([Js.num]).
      - [async] methods are awaited one at a time by [route]; they are
        plain state-passing functions here.
      - The outside world of one [route] call (the answers of the backend,
        [Math.random], [Date.now]) is an explicit environment.  A backend
        call resolves with a response or is rejected with any value; of
        that value the model keeps what [route] reads, its [message]. *)

From Stdlib Require Import ZArith QArith Qround Lia Bool List Sorted.
From Stdlib Require Import Ascii String.
From stdpp Require Import base option list strings gmap.
Import ListNotations.

Local Open Scope Z_scope.

(** A prompt: the code units of a JavaScript string. *)
Abbreviation text := (list ascii).

(** String literals of the source, as code units. *)
Abbreviation lit s := (list_ascii_of_string s) (only parsing).

(* ===================================================================== *)
(** * JavaScript values and library functions used by the source *)
(* ===================================================================== *)

Module Js.

(** ** Numbers with a fractional part *)

Inductive num : Type :=
  | Fin (q : Q)
  | PosInf
  | NegInf
  | NaN.

Definition Qsign (q : Q) : Z := Z.sgn (Qnum q).

Definition add (a b : num) : num :=
  match a, b with
  | NaN, _ | _, NaN => NaN
  | Fin x, Fin y => Fin (x + y)
  | PosInf, NegInf | NegInf, PosInf => NaN
  | PosInf, _ | _, PosInf => PosInf
  | NegInf, _ | _, NegInf => NegInf
  end.

Definition neg (a : num) : num :=
  match a with
  | Fin x => Fin (- x)
  | PosInf => NegInf
  | NegInf => PosInf
  | NaN => NaN
  end.

Definition sub (a b : num) : num := add a (neg b).

Definition inf_of_sign (s : Z) : num :=
  match s with
  | Z0 => NaN
  | Zpos _ => PosInf
  | Zneg _ => NegInf
  end.

Definition sign (a : num) : option Z :=
  match a with
  | Fin x => Some (Qsign x)
  | PosInf => Some 1
  | NegInf => Some (-1)
  | NaN => None
  end.

Definition mul (a b : num) : num :=
  match a, b with
  | Fin x, Fin y => Fin (x * y)
  | NaN, _ | _, NaN => NaN
  | _, _ =>
      match sign a, sign b with
      | Some sa, Some sb => inf_of_sign (sa * sb)
      | _, _ => NaN
      end
  end.

(** [a / b].  A finite non-zero number divided by zero is an infinity,
    zero divided by zero is NaN (the sign of a zero is not tracked: every
    zero is [+0]). *)
Definition div (a b : num) : num :=
  match a, b with
  | NaN, _ | _, NaN => NaN
  | Fin x, Fin y =>
      if Qeq_bool y 0 then inf_of_sign (Qsign x) else Fin (x / y)
  | Fin _, _ => Fin 0
  | _, Fin y => inf_of_sign (match sign a with Some s => s | None => 0 end
                              * (if Qeq_bool y 0 then 1 else Qsign y))
  | _, _ => NaN
  end.

(** [a > 0]. *)
Definition gt0 (a : num) : bool :=
  match a with
  | Fin x => Z.ltb 0 (Qnum x)
  | PosInf => true
  | NegInf | NaN => false
  end.

Definition of_Z (z : Z) : num := Fin (inject_Z z).

Definition is_finite (a : num) : bool :=
  match a with Fin _ => true | _ => false end.

(** [(tokens / 1_000_000) * rate] *)
Definition per_million (tokens : Z) (rate : Q) : num :=
  mul (div (of_Z tokens) (of_Z 1000000)) (Fin rate).

(** ** Completions: a call returns or throws *)

Record error : Type := mkError {
  err_name : string;       (* [error.name]: "Error", "TypeError", ... *)
  err_message : string     (* [error.message] *)
}.

Inductive completion (A : Type) : Type :=
  | Normal (a : A)
  | Throw (e : error).
Arguments Normal {A} a.
Arguments Throw {A} e.

(** ** [Array.prototype.slice(start)] with one argument *)

Definition slice_from {A : Type} (start : Z) (l : list A) : list A :=
  let len := Z.of_nat (List.length l) in
  let k := if start <? 0 then Z.max (len + start) 0 else Z.min start len in
  drop (Z.to_nat k) l.

(** ** Property names every object inherits from [Object.prototype] *)

Definition object_prototype_keys : list string :=
  [ "constructor"; "__defineGetter__"; "__defineSetter__"; "hasOwnProperty";
    "__lookupGetter__"; "__lookupSetter__"; "isPrototypeOf";
    "propertyIsEnumerable"; "toString"; "valueOf"; "__proto__";
    "toLocaleString" ]%string.

Definition is_inherited_key (k : string) : bool :=
  bool_decide (k ∈ object_prototype_keys).

(** ** Characters *)

Definition code (c : ascii) : Z := Z.of_nat (nat_of_ascii c).

Definition in_range (lo hi : Z) (c : ascii) : bool :=
  (lo <=? code c) && (code c <=? hi).

Definition is_digit (c : ascii) : bool := in_range 48 57 c.
Definition is_upper (c : ascii) : bool := in_range 65 90 c.
Definition is_lower (c : ascii) : bool := in_range 97 122 c.

(** The class [\w]: [A-Za-z0-9_]. *)
Definition is_word_char (c : ascii) : bool :=
  is_upper c || is_lower c || is_digit c || Ascii.eqb c "_".

Definition shift (d : Z) (c : ascii) : ascii :=
  ascii_of_nat (Z.to_nat (code c + d)).

(** [String.prototype.toLowerCase] on one code unit below 256: the ASCII
    capitals and the Latin-1 capitals (all of 192..222 but the
    multiplication sign 215) move up by 32. *)
Definition lower_char (c : ascii) : ascii :=
  if is_upper c then shift 32 c
  else if in_range 192 222 c && negb (code c =? 215) then shift 32 c
  else c.

Definition toLowerCase (s : text) : text := List.map lower_char s.

(** Canonicalisation of a code unit under the [i] flag of a regular
    expression (without [u]): its upper-case form.  The letters [a-z]
    become [A-Z], the Latin-1 small letters 224..254 (but the division
    sign 247) become 192..222.  The two code units whose upper-case form
    lies above 255 (181 and 255) are left as they are: a canonical form is
    only ever compared with those of the ASCII patterns, and a code unit
    above 127 never becomes an ASCII one. *)
Definition canonicalize (c : ascii) : ascii :=
  if is_lower c then shift (-32) c
  else if in_range 224 254 c && negb (code c =? 247) then shift (-32) c
  else c.

Definition canon (s : text) : text := List.map canonicalize s.

(** ** Searching *)

(** [s] starts with [p]. *)
Fixpoint starts_with (p s : text) : bool :=
  match p, s with
  | [], _ => true
  | _ :: _, [] => false
  | a :: p', b :: s' => Ascii.eqb a b && starts_with p' s'
  end.

(** [s.includes(p)], also the test of a regular expression that is a
    plain literal. *)
Fixpoint includes (s p : text) : bool :=
  starts_with p s ||
  match s with
  | [] => false
  | _ :: s' => includes s' p
  end.

Definition head_is_word (s : text) : bool :=
  match s with
  | [] => false
  | c :: _ => is_word_char c
  end.

(** The assertion [\b] between a left neighbour (if any) and the rest. *)
Definition boundary (prev : option ascii) (rest : text) : bool :=
  xorb (match prev with Some c => is_word_char c | None => false end)
       (head_is_word rest).

(** [s] with the prefix [p] removed, and the last code unit consumed. *)
Fixpoint strip_prefix (p s : text) (prev : option ascii)
  : option (option ascii * text) :=
  match p, s with
  | [], _ => Some (prev, s)
  | _ :: _, [] => None
  | a :: p', b :: s' =>
      if Ascii.eqb a b then strip_prefix p' s' (Some b) else None
  end.

(** The pattern [\bW\b] anchored here; [w] and [s] are canonical. *)
Definition word_here (w : text) (prev : option ascii) (s : text) : bool :=
  boundary prev s &&
  match strip_prefix w s prev with
  | Some (last, rest) => boundary last rest
  | None => false
  end.

(** [/\bW\b/i.test(s)]: the search tries every start position, left to
    right; [prev] is the code unit before the current position. *)
Fixpoint word_search (w : text) (prev : option ascii) (s : text) : bool :=
  word_here w prev s ||
  match s with
  | [] => false
  | c :: s' => word_search w (Some c) s'
  end.

Definition test_word_i (w : text) (s : text) : bool :=
  word_search (canon w) None (canon s).

(** [/\{[\s\S]*\}/.test(s)]: an opening brace with a closing brace
    somewhere after it. *)
Fixpoint test_brace_block (s : text) : bool :=
  match s with
  | [] => false
  | c :: s' =>
      (Ascii.eqb c "{" && existsb (Ascii.eqb "}") s') || test_brace_block s'
  end.

(** [s.match(/c/g)] for a single literal code unit [c]: the list of the
    matches, or [null] when there is none. *)
Definition match_all_char (c : ascii) (s : text) : option (list text) :=
  match List.filter (Ascii.eqb c) s with
  | [] => None
  | l => Some (List.map (fun x => [x]) l)
  end.

(** [s.match(/[set]+/g)]: the maximal runs of code units of the set. *)
Fixpoint runs (inset : ascii -> bool) (cur : text) (s : text) : list text :=
  match s with
  | [] => match cur with [] => [] | _ => [rev cur] end
  | c :: s' =>
      if inset c then runs inset (c :: cur) s'
      else match cur with
           | [] => runs inset [] s'
           | _ => rev cur :: runs inset [] s'
           end
  end.

Definition match_all_runs (inset : ascii -> bool) (s : text)
  : option (list text) :=
  match runs inset [] s with
  | [] => None
  | l => Some l
  end.

(** [m || []]. *)
Definition or_empty {A : Type} (m : option (list A)) : list A :=
  match m with
  | Some l => l
  | None => []
  end.

End Js.

(* ===================================================================== *)
(** * TaskAnalyzer *)
(* ===================================================================== *)

Module Analyzer.
Import Js.

Inductive Tier : Type := SIMPLE | MEDIUM | COMPLEX.

(** The string a tier is in the source. *)
Definition tier_key (t : Tier) : string :=
  match t with
  | SIMPLE => "SIMPLE"
  | MEDIUM => "MEDIUM"
  | COMPLEX => "COMPLEX"
  end.

(** [this.codePatterns], in the order of the array. *)
Definition codePatterns : list (text -> bool) :=
  [ (fun s => includes s (lit "```"));       (* /```/ *)
    test_word_i (lit "function");            (* /\bfunction\b/i *)
    test_word_i (lit "class");               (* /\bclass\b/i *)
    test_word_i (lit "import");              (* /\bimport\b/i *)
    test_word_i (lit "const");               (* /\bconst\b/i *)
    test_word_i (lit "let");                 (* /\blet\b/i *)
    test_word_i (lit "var");                 (* /\bvar\b/i *)
    (fun s => includes s (lit "=>"));        (* /=>/ *)
    test_brace_block ].                      (* /\{[\s\S]*\}/ *)

Definition reasoningKeywords : list text :=
  [ lit "analyze"; lit "explain"; lit "compare"; lit "evaluate";
    lit "critique"; lit "reason"; lit "logic"; lit "proof"; lit "deduce";
    lit "infer"; lit "strategy"; lit "plan"; lit "design"; lit "architect";
    lit "debug"; lit "optimize"; lit "refactor"; lit "solve" ].

Definition complexKeywords : list text :=
  [ lit "comprehensive"; lit "detailed"; lit "in-depth"; lit "thorough";
    lit "multiple"; lit "various"; lit "several"; lit "complex" ].

Record Metrics : Type := mkMetrics {
  tokens : Z;
  hasCode : bool;
  reasoningLevel : Z;
  complexityScore : Z;
  length : Z;
  sentences : Z;
  questions : Z
}.

Definition text_length (s : text) : Z := Z.of_nat (List.length s).

(** [Math.ceil(text.length / 4)] *)
Definition estimateTokens (s : text) : Z :=
  Qceiling (inject_Z (text_length s) / 4).

(** [this.codePatterns.some(pattern => pattern.test(prompt))] *)
Definition detectCode (prompt : text) : bool :=
  existsb (fun pattern => pattern prompt) codePatterns.

(** *** The separator [/\d+\.|step|first|then|next|finally/i] *)

(** [\d+\.] anchored here: the number of code units matched.  The
    digits are taken greedily; the dot has to follow the last of them. *)
Fixpoint digits_then_dot (s : text) : option nat :=
  match s with
  | [] => None
  | c :: s' =>
      if is_digit c then
        if starts_with (lit ".") s' then Some 2%nat
        else option_map S (digits_then_dot s')
      else None
  end.

Definition keyword_here (w s : text) : option nat :=
  if starts_with w s then Some (List.length w) else None.

(** The words of the separator, canonical. *)
Definition step_words : list text :=
  [ canon (lit "step"); canon (lit "first"); canon (lit "then");
    canon (lit "next"); canon (lit "finally") ].

Fixpoint first_keyword (ws : list text) (s : text) : option nat :=
  match ws with
  | [] => None
  | w :: ws' =>
      match keyword_here w s with
      | Some n => Some n
      | None => first_keyword ws' s
      end
  end.

(** The separator anchored here, alternatives tried in order; [s] is
    canonical. *)
Definition separator_here (s : text) : option nat :=
  match digits_then_dot s with
  | Some n => Some n
  | None => first_keyword step_words s
  end.

(** The number of separators [split] finds: at each position the separator
    is tried; after a match the search resumes behind it.  [skip] is the
    number of code units still covered by the last match. *)
Fixpoint count_separators (skip : nat) (s : text) : nat :=
  match s with
  | [] => O
  | _ :: s' =>
      match skip with
      | S k => count_separators k s'
      | O =>
          match separator_here s with
          | Some n => S (count_separators (Nat.pred n) s')
          | None => count_separators O s'
          end
      end
  end.

(** [prompt.split(/\d+\.|step|first|then|next|finally/i).length] *)
Definition split_length (prompt : text) : Z :=
  Z.of_nat (S (count_separators O (canon prompt))).

(** The [forEach] loops that add [w] for every keyword present. *)
Definition count_keywords (kws : list text) (w : Z) (s : text) : Z :=
  fold_left (fun score keyword =>
               if includes s keyword then score + w else score) kws 0.

Definition assessReasoning (prompt : text) : Z :=
  let lowerPrompt := toLowerCase prompt in
  let score := count_keywords reasoningKeywords 1 lowerPrompt in
  let steps := split_length prompt - 1 in
  let score := score + steps in
  Z.min 10 score.

(** [(text.match(/\?/g) || []).length] *)
Definition countQuestions (s : text) : Z :=
  Z.of_nat (List.length (or_empty (match_all_char "?" s))).

(** [(text.match(/[.!?]+/g) || []).length] *)
Definition countSentences (s : text) : Z :=
  let terminator c :=
    Ascii.eqb c "." || Ascii.eqb c "!" || Ascii.eqb c "?" in
  Z.of_nat (List.length (or_empty (match_all_runs terminator s))).

Definition calculateComplexity (prompt : text) : Z :=
  let score := 0 in
  let score := if text_length prompt >? 500 then score + 20 else score in
  let score := if text_length prompt >? 1000 then score + 20 else score in
  let score := if detectCode prompt then score + 25 else score in
  let reasoningScore := assessReasoning prompt in
  let score := score + reasoningScore * 3 in
  let lowerPrompt := toLowerCase prompt in
  let score := score + count_keywords complexKeywords 5 lowerPrompt in
  let questions := countQuestions prompt in
  let score := if questions >? 1 then score + questions * 5 else score in
  Z.min 100 score.

Definition calculateMetrics (prompt : text) : Metrics :=
  {| tokens := estimateTokens prompt;
     hasCode := detectCode prompt;
     reasoningLevel := assessReasoning prompt;
     complexityScore := calculateComplexity prompt;
     length := text_length prompt;
     sentences := countSentences prompt;
     questions := countQuestions prompt |}.

Definition determineTier (metrics : Metrics) : Tier :=
  if complexityScore metrics >=? 60 then COMPLEX
  else if hasCode metrics && (reasoningLevel metrics >=? 5) then COMPLEX
  else if tokens metrics >? 500 then COMPLEX
  else if complexityScore metrics >=? 30 then MEDIUM
  else if hasCode metrics then MEDIUM
  else if reasoningLevel metrics >=? 3 then MEDIUM
  else if tokens metrics >? 200 then MEDIUM
  else SIMPLE.

Definition tier_eqb (a b : Tier) : bool :=
  match a, b with
  | SIMPLE, SIMPLE | MEDIUM, MEDIUM | COMPLEX, COMPLEX => true
  | _, _ => false
  end.

Definition calculateConfidence (metrics : Metrics) (tier : Tier) : Q :=
  let score := complexityScore metrics in
  if tier_eqb tier COMPLEX && (score >=? 70) then 95 # 100
  else if tier_eqb tier COMPLEX && (score >=? 60) then 85 # 100
  else if tier_eqb tier MEDIUM && (score >=? 30) && (score <? 60)
       then 90 # 100
  else if tier_eqb tier SIMPLE && (score <? 25) then 92 # 100
  else 75 # 100.

(** The clauses [explainDecision] joins with a comma; the numbers are the
    ones the source interpolates. *)
Inductive Reason : Type :=
  | HighComplexityScore (score : Z)
  | ContainsCode
  | HighReasoningRequirement (level : Z)
  | LargeTokenCount (n : Z)
  | SimpleQuery.

Definition explainDecision (metrics : Metrics) (tier : Tier) : list Reason :=
  let reasons := [] in
  let reasons :=
    if complexityScore metrics >=? 60
    then reasons ++ [HighComplexityScore (complexityScore metrics)]
    else reasons in
  let reasons :=
    if hasCode metrics then reasons ++ [ContainsCode] else reasons in
  let reasons :=
    if reasoningLevel metrics >=? 5
    then reasons ++ [HighReasoningRequirement (reasoningLevel metrics)]
    else reasons in
  let reasons :=
    if tokens metrics >? 500
    then reasons ++ [LargeTokenCount (tokens metrics)]
    else reasons in
  match reasons with
  | [] => [SimpleQuery]
  | _ => reasons
  end.

Record Analysis : Type := mkAnalysis {
  tier : Tier;
  metrics : Metrics;
  confidence : Q;
  reasoning : list Reason
}.

Definition analyze (prompt : text) : Analysis :=
  let metrics := calculateMetrics prompt in
  let tier := determineTier metrics in
  {| tier := tier;
     metrics := metrics;
     confidence := calculateConfidence metrics tier;
     reasoning := explainDecision metrics tier |}.

(** *** The decision table of the specification *)

(** The eight rules as a table, read top to bottom; the first rule whose
    condition holds decides. *)
Definition tier_rules : list ((Metrics -> bool) * Tier) :=
  [ (fun m => 60 <=? complexityScore m, COMPLEX);
    (fun m => hasCode m && (5 <=? reasoningLevel m), COMPLEX);
    (fun m => 500 <? tokens m, COMPLEX);
    (fun m => 30 <=? complexityScore m, MEDIUM);
    (fun m => hasCode m, MEDIUM);
    (fun m => 3 <=? reasoningLevel m, MEDIUM);
    (fun m => 200 <? tokens m, MEDIUM);
    (fun _ => true, SIMPLE) ].

Fixpoint first_match (rules : list ((Metrics -> bool) * Tier)) (m : Metrics)
  : option Tier :=
  match rules with
  | [] => None
  | (cond, t) :: rest => if cond m then Some t else first_match rest m
  end.

(** *** Notions used to reason about the separator *)

(** No word of [ws] is the beginning of another one. *)
Fixpoint prefix_free (ws : list text) : bool :=
  match ws with
  | [] => true
  | w :: ws' =>
      forallb (fun v => negb (starts_with w v) && negb (starts_with v w)) ws'
      && prefix_free ws'
  end.

(** The beginnings of [w] that are shorter than [w]. *)
Definition proper_prefixes (w : text) : list text :=
  List.map (fun k => take k w) (seq 0 (List.length w)).

(** [w] begins with a code unit that is not a digit. *)
Definition starts_with_nondigit (w : text) : bool :=
  match w with
  | [] => false
  | c :: _ => negb (is_digit c)
  end.

(** *** Notions used to state that letter case does not matter *)

Definition all_code_units : list ascii := List.map ascii_of_nat (seq 0 256).

(** The code units the patterns and counters look for, letters apart. *)
Definition marks : list ascii :=
  [ "`"; "="; ">"; "{"; "}"; "?"; "."; "!" ]%char.

(** [f] changes a code unit within its case class only: same canonical
    form, same lower-case form, and a mark stays what it is. *)
Definition keeps_class (f : ascii -> ascii) (c : ascii) : bool :=
  Ascii.eqb (canonicalize (f c)) (canonicalize c) &&
  Ascii.eqb (lower_char (f c)) (lower_char c) &&
  forallb (fun a => Bool.eqb (Ascii.eqb a (f c)) (Ascii.eqb a c)) marks.

End Analyzer.

(* ===================================================================== *)
(** * CostTracker *)
(* ===================================================================== *)

Module Tracker.
Import Js.

(** The object [route] hands to [logRequest]. *)
Record LogEntry : Type := mkLogEntry {
  timestamp : Z;            (* [new Date()], in milliseconds *)
  prompt : text;
  tier : string;
  model : string;
  inputTokens : Z;
  outputTokens : Z;
  cost : num;
  duration : Z;
  success : bool;
  attempts : Z;
  error : option string     (* [error.message] of a failed attempt;
                               absent on success *)
}.

(** A row of the ledger: [{ ...request, id }]. *)
Record UsageRecord : Type := mkUsageRecord {
  id : Z;
  entry : LogEntry
}.

Record BaselineModel : Type := mkBaselineModel {
  name : string;
  costPerMInput : Q;
  costPerMOutput : Q
}.

Record CostTracker : Type := mkCostTracker {
  requests : list UsageRecord;
  baselineModel : BaselineModel
}.

(** [new CostTracker()] *)
Definition new_CostTracker : CostTracker :=
  {| requests := [];
     baselineModel := {| name := "Claude Opus 4.6";
                         costPerMInput := 90;
                         costPerMOutput := 90 |} |}.

Definition array_length {A : Type} (l : list A) : Z :=
  Z.of_nat (List.length l).

(** [this.requests.push({ ...request, id: this.requests.length + 1 })] *)
Definition logRequest (t : CostTracker) (request : LogEntry) : CostTracker :=
  {| requests :=
       requests t ++ [ {| id := array_length (requests t) + 1;
                          entry := request |} ];
     baselineModel := baselineModel t |}.

(** [this.requests = []] *)
Definition clear (t : CostTracker) : CostTracker :=
  {| requests := []; baselineModel := baselineModel t |}.

(** [this.requests.slice(-limit)], for a given [limit] *)
Definition getRecentRequests (t : CostTracker) (limit : Z)
  : list UsageRecord :=
  slice_from (- limit) (requests t).

Record TierStats : Type := mkTierStats {
  ts_requests : Z;
  ts_cost : num;
  ts_inputTokens : Z;
  ts_outputTokens : Z
}.

(** The object [calculateStats] returns.  The fields the early return
    leaves out are optional. *)
Record Statistics : Type := mkStatistics {
  totalRequests : Z;
  successfulRequests : Z;
  failedRequests : option Z;
  totalCost : num;
  baselineCost : num;
  savings : num;
  savingsPercent : num;
  savingsMultiplier : option num;
  avgCostPerRequest : num;
  totalInputTokens : option Z;
  totalOutputTokens : option Z;
  costByTier : list (string * TierStats);
  requestsByTier : option (list (string * Z))
}.

(** [rs.reduce((sum, r) => sum + r.cost, 0)] and its two siblings. *)
Definition sum_cost (rs : list UsageRecord) : num :=
  fold_left (fun sum r => add sum (cost (entry r))) rs (Fin 0).

Definition sum_inputTokens (rs : list UsageRecord) : Z :=
  fold_left (fun sum r => sum + inputTokens (entry r)) rs 0.

Definition sum_outputTokens (rs : list UsageRecord) : Z :=
  fold_left (fun sum r => sum + outputTokens (entry r)) rs 0.

Definition tier_names : list string := ["SIMPLE"; "MEDIUM"; "COMPLEX"]%string.

Definition calculateStats (t : CostTracker) : Statistics :=
  let successful := List.filter (fun r => success (entry r)) (requests t) in
  if array_length successful =? 0 then
    {| totalRequests := 0;
       successfulRequests := 0;
       failedRequests := None;
       totalCost := Fin 0;
       baselineCost := Fin 0;
       savings := Fin 0;
       savingsPercent := Fin 0;
       savingsMultiplier := None;
       avgCostPerRequest := Fin 0;
       totalInputTokens := None;
       totalOutputTokens := None;
       costByTier := [];
       requestsByTier := None |}
  else
    let totalCost := sum_cost successful in
    let totalInputTokens := sum_inputTokens successful in
    let totalOutputTokens := sum_outputTokens successful in
    let baselineCost :=
      add (per_million totalInputTokens (costPerMInput (baselineModel t)))
          (per_million totalOutputTokens (costPerMOutput (baselineModel t))) in
    let savings := sub baselineCost totalCost in
    let savingsPercent :=
      if gt0 baselineCost then mul (div savings baselineCost) (Fin 100)
      else Fin 0 in
    let tierRequests tier :=
      List.filter (fun r => String.eqb (Tracker.tier (entry r)) tier)
                  successful in
    {| totalRequests := array_length (requests t);
       successfulRequests := array_length successful;
       failedRequests :=
         Some (array_length (requests t) - array_length successful);
       totalCost := totalCost;
       baselineCost := baselineCost;
       savings := savings;
       savingsPercent := savingsPercent;
       savingsMultiplier :=
         Some (if gt0 baselineCost then div baselineCost totalCost
               else Fin 0);
       avgCostPerRequest := div totalCost (of_Z (array_length successful));
       totalInputTokens := Some totalInputTokens;
       totalOutputTokens := Some totalOutputTokens;
       costByTier :=
         List.map (fun tier =>
                     (tier,
                      {| ts_requests := array_length (tierRequests tier);
                         ts_cost := sum_cost (tierRequests tier);
                         ts_inputTokens := sum_inputTokens (tierRequests tier);
                         ts_outputTokens :=
                           sum_outputTokens (tierRequests tier) |}))
                  tier_names;
       requestsByTier :=
         Some (List.map (fun tier => (tier, array_length (tierRequests tier)))
                        tier_names) |}.

(** The ledger states a tracker goes through: created empty, then changed
    by [logRequest] and [clear] only. *)
Inductive reachable : CostTracker -> Prop :=
  | reach_new : reachable new_CostTracker
  | reach_log t request : reachable t -> reachable (logRequest t request)
  | reach_clear t : reachable t -> reachable (clear t).

(** *** Notions used to state the properties of the ledger *)

(** The records of [l] carry the ids [k], [k+1], ... in order. *)
Definition ids_from (k : Z) (l : list UsageRecord) : Prop :=
  forall (i : nat) r, l !! i = Some r -> id r = k + Z.of_nat i.

Definition successful (t : CostTracker) : list UsageRecord :=
  List.filter (fun r => success (entry r)) (requests t).

Definition failed (t : CostTracker) : list UsageRecord :=
  List.filter (fun r => negb (success (entry r))) (requests t).

(** A failed attempt as [route] logs it. *)
Definition failed_attempt : LogEntry :=
  {| timestamp := 0;
     prompt := lit "What is 2+2?...";
     tier := "COMPLEX";
     model := "anthropic/claude-opus-4-20250514";
     inputTokens := 0;
     outputTokens := 0;
     cost := Fin 0;
     duration := 120;
     success := false;
     attempts := 1;
     error := Some "Claude Opus 4.6 temporarily unavailable"%string |}.

(** A successful attempt on a tier whose rates were set to zero. *)
Definition free_attempt : LogEntry :=
  {| timestamp := 0;
     prompt := lit "What is 2+2?...";
     tier := "SIMPLE";
     model := "local/free-model";
     inputTokens := 1000;
     outputTokens := 500;
     cost := Fin 0;
     duration := 120;
     success := true;
     attempts := 1;
     error := None |}.

(** *** Reports *)

(** What the template literals of the reports are made of.  The text is
    kept as the source file has it; how a number is printed is left
    symbolic. *)
Inductive piece : Type :=
  | Text (s : string)               (* literal text *)
  | NL                              (* a line feed *)
  | Number (n : Z)                  (* [${n}] *)
  | Missing                         (* [${undefined}] *)
  | Fixed (x : num) (digits : Z)    (* [x.toFixed(digits)] *)
  | Locale (n : Z).                 (* [n.toLocaleString()] *)

Definition rule : string :=
  "═══════════════════════════════════════════════════════".

(** Calling [toFixed] on [undefined]. *)
Definition undefined_toFixed_error : Js.error :=
  {| err_name := "TypeError";
     err_message :=
       "Cannot read properties of undefined (reading 'toFixed')" |}.

Definition number_or_missing (n : option Z) : piece :=
  match n with
  | Some z => Number z
  | None => Missing
  end.

(** The body of the [forEach] over [Object.entries(stats.costByTier)]. *)
Definition tier_section (row : string * TierStats) : list piece :=
  let '(tier, data) := row in
  if ts_requests data >? 0 then
    [ Text "   "; Text tier; Text ":"; NL;
      Text "      Requests: "; Number (ts_requests data); NL;
      Text "      Cost: $"; Fixed (ts_cost data) 6; NL;
      Text "      Tokens: "; Locale (ts_inputTokens data); Text " in / ";
      Locale (ts_outputTokens data); Text " out"; NL ]
  else [].

Definition generateReport (t : CostTracker) : completion (list piece) :=
  let stats := calculateStats t in
  let report := [ Text rule; NL ] in
  let report :=
    report ++ [ Text "              SMARTROUTER COST REPORT"; NL ] in
  let report := report ++ [ Text rule; NL; NL ] in
  let report := report ++ [ Text "📊 Summary:"; NL ] in
  let report :=
    report ++ [ Text "   Total Requests: "; Number (totalRequests stats);
                NL ] in
  let report :=
    report ++ [ Text "   Successful: "; Number (successfulRequests stats);
                NL ] in
  let report :=
    report ++ [ Text "   Failed: ";
                number_or_missing (failedRequests stats); NL; NL ] in
  let report := report ++ [ Text "💰 Costs:"; NL ] in
  let report :=
    report ++ [ Text "   SmartRouter Cost: $"; Fixed (totalCost stats) 6;
                NL ] in
  let report :=
    report ++ [ Text "   Baseline Cost (All Opus): $";
                Fixed (baselineCost stats) 6; NL ] in
  let report :=
    report ++ [ Text "   💎 Savings: $"; Fixed (savings stats) 6;
                Text " ("; Fixed (savingsPercent stats) 1; Text "%)";
                NL ] in
  match savingsMultiplier stats with
  | None => Throw undefined_toFixed_error
  | Some multiplier =>
      let report :=
        report ++ [ Text "   🚀 Cost Multiplier: "; Fixed multiplier 2;
                    Text "x cheaper"; NL ] in
      let report :=
        report ++ [ Text "   Avg Cost/Request: $";
                    Fixed (avgCostPerRequest stats) 6; NL; NL ] in
      let report := report ++ [ Text "📈 Breakdown by Tier:"; NL ] in
      let report :=
        fold_left (fun report row => report ++ tier_section row)
                  (costByTier stats) report in
      let report := report ++ [ NL; Text rule; NL ] in
      Normal report
  end.

(** A row of [getDashboard().recent]; the timestamp stands for its
    [toISOString()]. *)
Record DashboardRow : Type := mkDashboardRow {
  row_timestamp : Z;
  row_tier : string;
  row_model : string;
  row_cost : piece;
  row_success : bool;
  row_duration : Z
}.

Record Dashboard : Type := mkDashboard {
  stats : Statistics;
  recent : list DashboardRow
}.

Definition getDashboard (t : CostTracker) : Dashboard :=
  let stats := calculateStats t in
  let recent := getRecentRequests t 5 in
  {| stats := stats;
     recent :=
       List.map (fun r =>
                   {| row_timestamp := timestamp (entry r);
                      row_tier := tier (entry r);
                      row_model := model (entry r);
                      row_cost := Fixed (cost (entry r)) 6;
                      row_success := success (entry r);
                      row_duration := duration (entry r) |})
                recent |}.

(** A record as [route] logs it for a failed attempt. *)
Definition is_failure (x : UsageRecord) : Prop :=
  success (entry x) = false /\
  cost (entry x) = Fin 0 /\
  inputTokens (entry x) = 0 /\
  outputTokens (entry x) = 0.

(** The successful records of one of the three tiers. *)
Definition known_tier (x : UsageRecord) : bool :=
  bool_decide (tier (entry x) ∈ tier_names).

End Tracker.

(* ===================================================================== *)
(** * ModelRouter *)
(* ===================================================================== *)

Module Router.
Import Js.

Record ModelConfig : Type := mkModelConfig {
  name : string;
  displayName : string;
  costPerMInput : Q;
  costPerMOutput : Q;
  maxRetries : Z
}.

Record Usage : Type := mkUsage {
  input : Z;
  output : Z;
  total : Z
}.

Record Response : Type := mkResponse {
  content : text;
  usage : Usage
}.

(** What a backend call is rejected with, as far as [route] looks at it:
    the [catch] block reads [error.message] and nothing else. *)
Inductive Thrown : Type :=
  | ErrorObject (message : string)  (* an [Error], or any other object
                                       whose [message] is a string *)
  | NoMessage        (* any other value but the two below, a thrown string
                        for one: its [message] is [undefined] *)
  | ThrownUndefined  (* [undefined], as [Promise.reject()] gives *)
  | ThrownNull.      (* [null] *)

(** What awaiting the backend gives: a response, or a rejection. *)
Inductive Outcome : Type :=
  | Resolved (response : Response)
  | Rejected (reason : Thrown).

(** Reading [message] of [undefined], or of [null]. *)
Definition no_message_error (of_null : bool) : error :=
  {| err_name := "TypeError";
     err_message :=
       "Cannot read properties of "
       +:+ (if of_null then "null" else "undefined")
       +:+ " (reading 'message')" |}.

(** [error.message]: the message, [undefined] ([None]) for a value that
    has none, and a TypeError for [undefined] and [null]. *)
Definition read_message (reason : Thrown) : completion (option string) :=
  match reason with
  | ErrorObject message => Normal (Some message)
  | NoMessage => Normal None
  | ThrownUndefined => Throw (no_message_error false)
  | ThrownNull => Throw (no_message_error true)
  end.

(** [apiClient.complete(model.name, prompt, options)]; the first argument
    here is the number of the attempt within the [route] call, so that a
    client may answer differently each time. *)
Definition ApiClient : Type := Z -> string -> text -> Outcome.

(** The world one [route] call sees. *)
Record Env : Type := mkEnv {
  random : Z -> Q;   (* the [Math.random()] the mock compares with its
                        failure rate, per attempt; the draw for the
                        simulated latency has no effect on the result *)
  now : Z -> Z       (* the n-th reading of the clock by this call *)
}.

Record ModelRouter : Type := mkModelRouter {
  models : gmap string ModelConfig;
  apiClient : option ApiClient;
  costTracker : Tracker.CostTracker
}.

Definition default_models : gmap string ModelConfig :=
  <[ "SIMPLE"%string :=
       {| name := "minimax/minimax-01";
          displayName := "Minimax M2.5";
          costPerMInput := 127 # 100;
          costPerMOutput := 127 # 100;
          maxRetries := 2 |} ]>
  (<[ "MEDIUM"%string :=
       {| name := "anthropic/claude-3-5-haiku-20241022";
          displayName := "Claude 3.5 Haiku";
          costPerMInput := 80 # 100;
          costPerMOutput := 4;
          maxRetries := 2 |} ]>
  (<[ "COMPLEX"%string :=
       {| name := "anthropic/claude-opus-4-20250514";
          displayName := "Claude Opus 4.6";
          costPerMInput := 90;
          costPerMOutput := 90;
          maxRetries := 1 |} ]> ∅)).

(** [new ModelRouter(options)] *)
Definition new_ModelRouter (client : option ApiClient)
    (tracker : option Tracker.CostTracker) : ModelRouter :=
  {| models := default_models;
     apiClient := client;
     costTracker := match tracker with
                    | Some t => t
                    | None => Tracker.new_CostTracker
                    end |}.

(** What reading a property of an object literal gives: the value of an
    own property, a member of [Object.prototype] (a function, or the
    prototype itself), or [undefined]. *)
Inductive property (A : Type) : Type :=
  | Own (a : A)
  | Inherited
  | Undefined.
Arguments Own {A} a.
Arguments Inherited {A}.
Arguments Undefined {A}.

(** [this.models[tier]] *)
Definition models_get (r : ModelRouter) (tier : string)
  : property ModelConfig :=
  match models r !! tier with
  | Some m => Own m
  | None => if is_inherited_key tier then Inherited else Undefined
  end.

(** [this.fallbackChain]; [None] is the [null] of the highest tier. *)
Definition fallbackChain : gmap string (option string) :=
  <[ "SIMPLE"%string := Some "MEDIUM"%string ]>
  (<[ "MEDIUM"%string := Some "COMPLEX"%string ]>
  (<[ "COMPLEX"%string := None ]> ∅)).

(** [this.fallbackChain[tier]] *)
Definition fallback_get (tier : string) : property (option string) :=
  match fallbackChain !! tier with
  | Some next => Own next
  | None => if is_inherited_key tier then Inherited else Undefined
  end.

(** A string in a condition: true unless empty. *)
Definition truthy (s : string) : bool := negb (String.eqb s "").

(** [getModelInfo(tier)] *)
Definition getModelInfo (r : ModelRouter) (tier : string)
  : completion (property ModelConfig) :=
  Normal (models_get r tier).

(** [calculateCost(tier, usage)], with [this.models[tier]] already read. *)
Definition calculateCost (model : ModelConfig) (u : Usage) : num :=
  let inputCost := per_million (input u) (costPerMInput model) in
  let outputCost := per_million (output u) (costPerMOutput model) in
  add inputCost outputCost.

Definition newline : ascii := ascii_of_nat 10.
Definition dquote : ascii := ascii_of_nat 34.

(** The demo backend of [executeModel]. *)
Definition mockModel (env : Env) (attempt : Z) (tier : string)
    (model : ModelConfig) (prompt : text) : Outcome :=
  let inputTokens := Qceiling (inject_Z (Analyzer.text_length prompt) / 4) in
  let outputTokens := Qfloor (inject_Z inputTokens * (5 # 10)) in
  let failureRate :=
    if String.eqb tier "SIMPLE" then 15 # 100
    else if String.eqb tier "MEDIUM" then 5 # 100
    else 1 # 100 in
  if Qlt_le_dec (random env attempt) failureRate then
    Rejected (ErrorObject (displayName model +:+ " temporarily unavailable"))
  else
    Resolved
      {| content :=
           lit "[Mock response from " ++ lit (displayName model) ++ lit "]"
           ++ [newline; newline] ++ lit "This is a simulated response to: "
           ++ [dquote] ++ take 50 prompt ++ lit "..." ++ [dquote];
         usage := {| input := inputTokens;
                     output := outputTokens;
                     total := inputTokens + outputTokens |} |}.

(** [executeModel(tier, prompt, options)], with [this.models[tier]]
    already read. *)
Definition executeModel (r : ModelRouter) (env : Env) (attempt : Z)
    (tier : string) (model : ModelConfig) (prompt : text) : Outcome :=
  match apiClient r with
  | Some client => client attempt (name model) prompt
  | None => mockModel env attempt tier model prompt
  end.

(** The result object of a successful [route]. *)
Record DispatchResult : Type := mkDispatchResult {
  res_success : bool;
  res_tier : string;
  res_model : string;
  res_displayName : string;
  res_response : text;
  res_usage : Usage;
  res_cost : num;
  res_duration : Z;
  res_analysis : Analyzer.Analysis;
  res_attempts : Z
}.

(** How a [route] call ends.  [OutOfModel] marks the runs that step on a
    member of [Object.prototype] used as a tier; [OutOfFuel] is the loop
    bound of the embedding, never reached (see [route_loop_run]). *)
Inductive RouteOutcome : Type :=
  | Returned (result : DispatchResult)
  | Threw (e : error)
  | OutOfModel
  | OutOfFuel.

(** The state a [route] call changes: the ledger, and (for the proofs
    only) the tiers whose backend was invoked, oldest first. *)
Record RouteState : Type := mkRouteState {
  tracker : Tracker.CostTracker;
  invoked : list string
}.

(** Reading [displayName] of [undefined]. *)
Definition undefined_model_error : error :=
  {| err_name := "TypeError";
     err_message :=
       "Cannot read properties of undefined (reading 'displayName')" |}.

(** [new Error(`All models failed. Last error: ${lastError?.message}`)],
    given the value of [lastError?.message]. *)
Definition all_failed_error (lastError : option string) : error :=
  {| err_name := "Error";
     err_message :=
       "All models failed. Last error: " +:+
       match lastError with
       | Some message => message
       | None => "undefined"
       end |}.

Definition prompt_preview (prompt : text) : text :=
  take 100 prompt ++ lit "...".

Section Route.

Variable r : ModelRouter.
Variable env : Env.
Variable prompt : text.
Variable analysis : Analyzer.Analysis.
Variable startTime : Z.

(** The entry logged for a failed attempt; [message] is the value of
    [error.message]. *)
Definition failure_entry (tier : string) (model : ModelConfig)
    (attempts : Z) (message : option string) : Tracker.LogEntry :=
  {| Tracker.timestamp := now env (2 * attempts - 1);
     Tracker.prompt := prompt_preview prompt;
     Tracker.tier := tier;
     Tracker.model := name model;
     Tracker.inputTokens := 0;
     Tracker.outputTokens := 0;
     Tracker.cost := Fin 0;
     Tracker.duration := now env (2 * attempts) - startTime;
     Tracker.success := false;
     Tracker.attempts := attempts;
     Tracker.error := message |}.

(** The entry logged for a successful attempt. *)
Definition success_entry (tier : string) (model : ModelConfig)
    (attempts : Z) (response : Response) : Tracker.LogEntry :=
  {| Tracker.timestamp := now env (2 * attempts);
     Tracker.prompt := prompt_preview prompt;
     Tracker.tier := tier;
     Tracker.model := name model;
     Tracker.inputTokens := input (usage response);
     Tracker.outputTokens := output (usage response);
     Tracker.cost := calculateCost model (usage response);
     Tracker.duration := now env (2 * attempts - 1) - startTime;
     Tracker.success := true;
     Tracker.attempts := attempts;
     Tracker.error := None |}.

Definition success_result (tier : string) (model : ModelConfig)
    (attempts : Z) (response : Response) : DispatchResult :=
  {| res_success := true;
     res_tier := tier;
     res_model := name model;
     res_displayName := displayName model;
     res_response := content response;
     res_usage := usage response;
     res_cost := calculateCost model (usage response);
     res_duration := now env (2 * attempts - 1) - startTime;
     res_analysis := analysis;
     res_attempts := attempts |}.

Definition log (st : RouteState) (e : Tracker.LogEntry) : RouteState :=
  {| tracker := Tracker.logRequest (tracker st) e; invoked := invoked st |}.

Definition invoke (st : RouteState) (tier : string) : RouteState :=
  {| tracker := tracker st; invoked := invoked st ++ [tier] |}.

(** What one turn of the [while] loop decides; [message] is the value
    of [lastError.message] it leaves. *)
Inductive Turn : Type :=
  | Finish (o : RouteOutcome)              (* [return] or an escaping throw *)
  | FallBack (nextTier : string) (message : option string)
                                           (* [tier = nextTier] *)
  | Break (message : option string).       (* [break] *)

(** The body of [while (tier) { ... }]; [attempts] is already
    incremented. *)
Definition turn (tier : string) (attempts : Z) (st : RouteState)
  : Turn * RouteState :=
  match models_get r tier with
  | Undefined =>
      (* [model.displayName] throws in the [try] block, and again in the
         [catch] block, before anything is logged *)
      (Finish (Threw undefined_model_error), st)
  | Inherited => (Finish OutOfModel, st)
  | Own model =>
      let st := invoke st tier in
      match executeModel r env attempts tier model prompt with
      | Resolved response =>
          let st := log st (success_entry tier model attempts response) in
          (Finish (Returned (success_result tier model attempts response)),
           st)
      | Rejected reason =>
          match read_message reason with
          | Throw e =>
              (* [error.message] throws in the [catch] block, before
                 [logRequest] and before the fallback *)
              (Finish (Threw e), st)
          | Normal message =>
              let st := log st (failure_entry tier model attempts message) in
              match fallback_get tier with
              | Own (Some nextTier) =>
                  if truthy nextTier && (attempts <? 3)
                  then (FallBack nextTier message, st)
                  else (Break message, st)
              | Own None | Undefined => (Break message, st)
              | Inherited =>
                  if attempts <? 3 then (Finish OutOfModel, st)
                  else (Break message, st)
              end
          end
      end
  end.

(** The [while] loop and the [throw] behind it; [lastError] is kept as
    the value of [lastError?.message]. *)
Fixpoint route_loop (fuel : nat) (tier : string) (attempts : Z)
    (lastError : option string) (st : RouteState)
  : RouteOutcome * RouteState :=
  if truthy tier then
    match fuel with
    | O => (OutOfFuel, st)
    | S fuel' =>
        let attempts := attempts + 1 in
        match turn tier attempts st with
        | (Finish o, st') => (o, st')
        | (FallBack nextTier message, st') =>
            route_loop fuel' nextTier attempts message st'
        | (Break message, st') =>
            (Threw (all_failed_error message), st')
        end
    end
  else (Threw (all_failed_error lastError), st).

End Route.

(** [options.forceTier || analysis.tier] *)
Definition initial_tier (forceTier : option string)
    (analysis : Analyzer.Analysis) : string :=
  match forceTier with
  | Some t => if truthy t then t
              else Analyzer.tier_key (Analyzer.tier analysis)
  | None => Analyzer.tier_key (Analyzer.tier analysis)
  end.

(** [route(prompt, options)]: the outcome, the router afterwards, and the
    tiers whose backend was invoked. *)
Definition route (r : ModelRouter) (env : Env) (prompt : text)
    (forceTier : option string)
  : RouteOutcome * Tracker.CostTracker * list string :=
  let analysis := Analyzer.analyze prompt in
  let startTime := now env 0 in
  let tier := initial_tier forceTier analysis in
  let '(o, st) :=
    route_loop r env prompt analysis startTime 3 tier 0 None
               {| tracker := costTracker r; invoked := [] |} in
  (o, tracker st, invoked st).

(** *** The dispatch state machine of the specification *)

(** The fixed escalation order SIMPLE -> MEDIUM -> COMPLEX -> (none). *)
Definition next_tier (tier : string) : option string :=
  if String.eqb tier "SIMPLE" then Some "MEDIUM"%string
  else if String.eqb tier "MEDIUM" then Some "COMPLEX"%string
  else None.

(** The tiers a call starting at [tier] can go through, in order. *)
Definition chain_from (tier : string) : list string :=
  if String.eqb tier "SIMPLE" then ["SIMPLE"; "MEDIUM"; "COMPLEX"]%string
  else if String.eqb tier "MEDIUM" then ["MEDIUM"; "COMPLEX"]%string
  else [tier].

(** [st'] is [st] after the backend of [tier] was invoked and a failure
    record for it was appended: cost 0, no tokens, and as error the
    message of what the backend was rejected with ([None] when that value
    has no message). *)
Definition failure_logged (st : RouteState) (tier : string) (attempt : Z)
    (message : option string) (st' : RouteState) : Prop :=
  exists e,
    st' = {| tracker := Tracker.logRequest (tracker st) e;
             invoked := invoked st ++ [tier] |} /\
    Tracker.tier e = tier /\
    Tracker.success e = false /\
    Tracker.cost e = Fin 0 /\
    Tracker.inputTokens e = 0 /\
    Tracker.outputTokens e = 0 /\
    Tracker.attempts e = attempt /\
    Tracker.error e = message.

Section Machine.

Variable r : ModelRouter.
Variable env : Env.
Variable prompt : text.
Variable analysis : Analyzer.Analysis.
Variable startTime : Z.

(** [run tier n st o st']: entering the state [tier] after [n] attempts
    with the state [st], the call ends with [o] in the state [st']. *)
Inductive run : string -> Z -> RouteState -> RouteOutcome -> RouteState
              -> Prop :=
  | run_no_model tier n st :
      models_get r tier = Undefined ->
      run tier n st (Threw undefined_model_error) st
  | run_success tier n st model response :
      models_get r tier = Own model ->
      executeModel r env (n + 1) tier model prompt = Resolved response ->
      run tier n st
          (Returned (success_result env analysis startTime tier model
                                    (n + 1) response))
          (log (invoke st tier)
               (success_entry env prompt startTime tier model (n + 1)
                              response))
  | run_unreadable tier n st model reason e :
      models_get r tier = Own model ->
      executeModel r env (n + 1) tier model prompt = Rejected reason ->
      read_message reason = Throw e ->
      run tier n st (Threw e) (invoke st tier)
  | run_fall_back tier n st model reason message st1 nextTier o st2 :
      models_get r tier = Own model ->
      executeModel r env (n + 1) tier model prompt = Rejected reason ->
      read_message reason = Normal message ->
      failure_logged st tier (n + 1) message st1 ->
      next_tier tier = Some nextTier ->
      n + 1 < 3 ->
      run nextTier (n + 1) st1 o st2 ->
      run tier n st o st2
  | run_exhausted tier n st model reason message st1 :
      models_get r tier = Own model ->
      executeModel r env (n + 1) tier model prompt = Rejected reason ->
      read_message reason = Normal message ->
      failure_logged st tier (n + 1) message st1 ->
      next_tier tier = None \/ 3 <= n + 1 ->
      run tier n st
          (Threw {| err_name := "Error";
                    err_message :=
                      "All models failed. Last error: "
                      +:+ default "undefined"%string message |})
          st1.

End Machine.

(** *** Sample worlds *)

(** A world whose demo backend never fails. *)
Definition calm_env : Env :=
  {| random := fun _ => (1 # 2)%Q; now := fun n => 1000 + n |}.

(** A world whose demo backend fails on the first two attempts. *)
Definition rough_env : Env :=
  {| random := fun k => if k <? 3 then 0%Q else (1 # 2)%Q;
     now := fun n => 1000 + n |}.

(** A backend client whose every call is rejected with [reason]. *)
Definition rejecting_client (reason : Thrown) : ApiClient :=
  fun _ _ _ => Rejected reason.

(** *** Configuration *)

(** The object handed to [setModel]: any of the fields. *)
Record PartialConfig : Type := mkPartialConfig {
  p_name : option string;
  p_displayName : option string;
  p_costPerMInput : option Q;
  p_costPerMOutput : option Q;
  p_maxRetries : option Z
}.

(** [{ ...model, ...config }] *)
Definition merge (model : ModelConfig) (config : PartialConfig)
  : ModelConfig :=
  {| name := default (name model) (p_name config);
     displayName := default (displayName model) (p_displayName config);
     costPerMInput := default (costPerMInput model) (p_costPerMInput config);
     costPerMOutput :=
       default (costPerMOutput model) (p_costPerMOutput config);
     maxRetries := default (maxRetries model) (p_maxRetries config) |}.

(** [{ ...config }] when it has all five fields. *)
Definition complete (config : PartialConfig) : option ModelConfig :=
  match p_name config, p_displayName config, p_costPerMInput config,
        p_costPerMOutput config, p_maxRetries config with
  | Some n, Some d, Some i, Some o, Some m =>
      Some {| name := n; displayName := d; costPerMInput := i;
              costPerMOutput := o; maxRetries := m |}
  | _, _, _, _, _ => None
  end.

Definition with_models (r : ModelRouter) (ms : gmap string ModelConfig)
  : ModelRouter :=
  {| models := ms; apiClient := apiClient r; costTracker := costTracker r |}.

(** [this.models[tier] = { ...this.models[tier], ...config }].  The result
    is [None] where the embedding has no value for it: a new tier whose
    configuration lacks a field, and the name [__proto__], whose
    assignment replaces the prototype instead of adding a key. *)
Definition setModel (r : ModelRouter) (tier : string)
    (config : PartialConfig) : option ModelRouter :=
  if String.eqb tier "__proto__" then None
  else
    match models r !! tier with
    | Some model =>
        Some (with_models r (<[ tier := merge model config ]> (models r)))
    | None =>
        match complete config with
        | Some model => Some (with_models r (<[ tier := model ]> (models r)))
        | None => None
        end
    end.

(** *** Notions used to state the properties of the dispatcher *)

(** The three tiers are keys of [models], as the constructor leaves
    them. *)
Definition has_tiers (r : ModelRouter) : Prop :=
  forall t, is_Some (models r !! Analyzer.tier_key t).

(** [r] with other retry budgets. *)
Definition set_retries (f : ModelConfig -> Z) (r : ModelRouter)
  : ModelRouter :=
  with_models r
    ((fun m => {| name := name m; displayName := displayName m;
                  costPerMInput := costPerMInput m;
                  costPerMOutput := costPerMOutput m;
                  maxRetries := f m |}) <$> models r).

(** [x] is the record of a failed attempt of a call of [r] for [prompt]:
    no cost, no tokens, and as error the message of what the backend of
    its tier was rejected with at that attempt (none, when that value has
    no message). *)
Definition failure_record (r : ModelRouter) (env : Env) (prompt : text)
    (x : Tracker.UsageRecord) : Prop :=
  Tracker.is_failure x /\
  exists model reason,
    models_get r (Tracker.tier (Tracker.entry x)) = Own model /\
    executeModel r env (Tracker.attempts (Tracker.entry x))
                 (Tracker.tier (Tracker.entry x)) model prompt
    = Rejected reason /\
    read_message reason = Normal (Tracker.error (Tracker.entry x)).

(** The call ended in the [catch] block, with the TypeError of reading
    the message of [undefined] or of [null]. *)
Definition ended_unlogged (o : RouteOutcome) : Prop :=
  exists what : string,
    (what = "undefined" \/ what = "null")%string /\
    o = Threw {| err_name := "TypeError";
                 err_message :=
                   "Cannot read properties of " +:+ what
                   +:+ " (reading 'message')" |}.

(** The result of a call and the record logged for it agree. *)
Definition result_logged (result : DispatchResult) (x : Tracker.UsageRecord)
  : Prop :=
  Tracker.success (Tracker.entry x) = true /\
  Tracker.error (Tracker.entry x) = None /\
  Tracker.tier (Tracker.entry x) = res_tier result /\
  Tracker.model (Tracker.entry x) = res_model result /\
  Tracker.cost (Tracker.entry x) = res_cost result /\
  Tracker.inputTokens (Tracker.entry x) = input (res_usage result) /\
  Tracker.outputTokens (Tracker.entry x) = output (res_usage result) /\
  Tracker.duration (Tracker.entry x) = res_duration result /\
  Tracker.attempts (Tracker.entry x) = res_attempts result.

End Router.

(* ===================================================================== *)
(** * Searching in a text that grows at its end *)
(* ===================================================================== *)

Module JsFacts.
Import Js.

Section Append.

Variable x : text.   (* what is appended *)

Lemma starts_with_app p : forall s,
  starts_with p s = true -> starts_with p (s ++ x) = true.
Proof.
  induction p as [|a p IH]; intros [|b s]; simpl; try easy.
  intros [-> H]%andb_true_iff. simpl. now apply IH.
Qed.

Lemma includes_nil p : includes [] p = true -> p = [].
Proof. destruct p; simpl; [reflexivity|discriminate]. Qed.

Lemma includes_empty s : includes s [] = true.
Proof. destruct s; reflexivity. Qed.

Lemma includes_app p : forall s,
  includes s p = true -> includes (s ++ x) p = true.
Proof.
  induction s as [|c s IH]; intros H.
  - apply includes_nil in H as ->. apply includes_empty.
  - change (starts_with p (c :: s) || includes s p = true) in H.
    change (starts_with p ((c :: s) ++ x) || includes (s ++ x) p = true).
    apply orb_true_iff in H as [H|H].
    + now rewrite (starts_with_app _ _ H).
    + rewrite (IH H). apply orb_true_r.
Qed.

Lemma test_brace_block_app : forall s,
  test_brace_block s = true -> test_brace_block (s ++ x) = true.
Proof.
  induction s as [|c s IH]; simpl; [discriminate|].
  intros [[-> H]%andb_true_iff | H]%orb_true_iff.
  - rewrite existsb_app, H. reflexivity.
  - rewrite (IH H). apply orb_true_r.
Qed.

Hypothesis x_head : head_is_word x = false.

Lemma boundary_app prev s : boundary prev (s ++ x) = boundary prev s.
Proof.
  destruct s as [|c s]; [|reflexivity].
  unfold boundary. simpl. now rewrite x_head.
Qed.

Lemma strip_prefix_app w : forall s prev last rest,
  strip_prefix w s prev = Some (last, rest) ->
  strip_prefix w (s ++ x) prev = Some (last, rest ++ x).
Proof.
  induction w as [|a w IH]; intros s prev last rest; simpl.
  - now intros [= -> ->].
  - destruct s as [|b s]; [discriminate|]. simpl.
    destruct (Ascii.eqb a b); [apply IH|discriminate].
Qed.

Lemma word_here_app w prev s :
  word_here w prev s = true -> word_here w prev (s ++ x) = true.
Proof.
  unfold word_here. rewrite boundary_app.
  intros [-> H]%andb_true_iff. simpl.
  destruct (strip_prefix w s prev) as [[last rest]|] eqn:E; [|discriminate].
  rewrite (strip_prefix_app _ _ _ _ _ E). now rewrite boundary_app.
Qed.

Lemma word_search_start w prev s :
  word_here w prev s = true -> word_search w prev s = true.
Proof. destruct s; simpl; now intros ->. Qed.

Lemma word_search_app w : forall s prev,
  word_search w prev s = true -> word_search w prev (s ++ x) = true.
Proof.
  induction s as [|c s IH]; intros prev H.
  - apply word_search_start, (word_here_app w prev []).
    simpl in H. now rewrite orb_false_r in H.
  - change (word_here w prev (c :: s) || word_search w (Some c) s = true)
      in H.
    change (word_here w prev ((c :: s) ++ x)
            || word_search w (Some c) (s ++ x) = true).
    apply orb_true_iff in H as [H|H].
    + now rewrite (word_here_app _ _ _ H).
    + rewrite (IH _ H). apply orb_true_r.
Qed.

End Append.

Lemma is_word_char_canonicalize c :
  is_word_char (canonicalize c) = is_word_char c.
Proof. destruct c as [[] [] [] [] [] [] [] []]; reflexivity. Qed.

Lemma head_is_word_canon s : head_is_word (canon s) = head_is_word s.
Proof. destruct s; [reflexivity|apply is_word_char_canonicalize]. Qed.

Lemma canon_app s x : canon (s ++ x) = canon s ++ canon x.
Proof. apply List.map_app. Qed.

Lemma toLowerCase_app s x :
  toLowerCase (s ++ x) = toLowerCase s ++ toLowerCase x.
Proof. apply List.map_app. Qed.

(** A word-boundary pattern that matches keeps matching when the text
    grows by something that does not begin with a word character. *)
Lemma test_word_i_app w s x :
  head_is_word x = false ->
  test_word_i w s = true -> test_word_i w (s ++ x) = true.
Proof.
  intros Hx. unfold test_word_i. rewrite canon_app.
  apply word_search_app. now rewrite head_is_word_canon.
Qed.

(** Two words that begin the same text: one begins the other. *)
Lemma starts_with_both : forall s w v,
  starts_with w s = true -> starts_with v s = true ->
  starts_with w v = true \/ starts_with v w = true.
Proof.
  induction s as [|c s IH]; intros [|a w] [|b v]; simpl; auto; try easy.
  intros [Ha Hw]%andb_true_iff [Hb Hv]%andb_true_iff.
  apply Ascii.eqb_eq in Ha, Hb. subst a b. rewrite Ascii.eqb_refl. simpl.
  now apply IH.
Qed.

End JsFacts.

(* ===================================================================== *)
(** * Properties of the classifier *)
(* ===================================================================== *)

Module AnalyzerFacts.
Import Js Analyzer.

(** ** Bounds *)

Lemma count_keywords_acc kws w s : forall a,
  fold_left (fun score keyword =>
               if includes s keyword then score + w else score) kws a
  = a + count_keywords kws w s.
Proof.
  unfold count_keywords.
  induction kws as [|k kws IH]; intros a; simpl; [lia|].
  rewrite IH, (IH (if includes s k then 0 + w else 0)).
  destruct (includes s k); lia.
Qed.

Lemma count_keywords_cons k kws w s :
  count_keywords (k :: kws) w s
  = (if includes s k then w else 0) + count_keywords kws w s.
Proof.
  unfold count_keywords at 1. simpl. rewrite count_keywords_acc.
  destruct (includes s k); lia.
Qed.

Lemma count_keywords_nonneg kws w s : 0 <= w -> 0 <= count_keywords kws w s.
Proof.
  intros Hw. induction kws as [|k kws IH]; [reflexivity|].
  rewrite count_keywords_cons. destruct (includes s k); lia.
Qed.

Lemma split_length_pos prompt : 1 <= split_length prompt.
Proof. unfold split_length. lia. Qed.

Lemma assessReasoning_bounds prompt : 0 <= assessReasoning prompt <= 10.
Proof.
  unfold assessReasoning.
  pose proof (count_keywords_nonneg reasoningKeywords 1
                (toLowerCase prompt) ltac:(lia)).
  pose proof (split_length_pos prompt). lia.
Qed.

Lemma countQuestions_filter s :
  countQuestions s
  = Z.of_nat (List.length (List.filter (Ascii.eqb "?") s)).
Proof.
  unfold countQuestions, match_all_char.
  destruct (List.filter (Ascii.eqb "?") s) as [|x l]; simpl; [reflexivity|].
  now rewrite List.length_map.
Qed.

Lemma calculateComplexity_bounds prompt :
  0 <= calculateComplexity prompt <= 100.
Proof.
  unfold calculateComplexity.
  pose proof (assessReasoning_bounds prompt).
  pose proof (count_keywords_nonneg complexKeywords 5
                (toLowerCase prompt) ltac:(lia)).
  assert (0 <= countQuestions prompt)
    by (rewrite countQuestions_filter; lia).
  destruct (text_length prompt >? 500), (text_length prompt >? 1000),
    (detectCode prompt), (countQuestions prompt >? 1); lia.
Qed.

(** ** The tier decision *)

(** C3: the tier [determineTier] returns, and so the tier of [analyze],
    is the one the decision table gives when it is read top to bottom and
    the first matching rule wins. *)
Theorem determineTier_precedence :
  (forall m, first_match tier_rules m = Some (determineTier m)) /\
  (forall prompt,
     metrics (analyze prompt) = calculateMetrics prompt /\
     first_match tier_rules (calculateMetrics prompt)
     = Some (tier (analyze prompt))).
Proof.
  assert (H : forall m, first_match tier_rules m = Some (determineTier m)).
  { intros m. unfold determineTier, tier_rules, first_match.
    rewrite !Z.geb_leb, !Z.gtb_ltb.
    destruct (60 <=? complexityScore m); [reflexivity|].
    destruct (hasCode m && (5 <=? reasoningLevel m)); [reflexivity|].
    destruct (500 <? tokens m); [reflexivity|].
    destruct (30 <=? complexityScore m); [reflexivity|].
    destruct (hasCode m); [reflexivity|].
    destruct (3 <=? reasoningLevel m); [reflexivity|].
    destruct (200 <? tokens m); reflexivity. }
  split; [exact H|].
  intros prompt. split; [reflexivity|]. apply H.
Qed.

(** ** Degenerate inputs *)

(** C7: [analyze] is a total function of the prompt alone -- every
    prompt has a result, with a score in 0..100, a reasoning level in
    0..10 and one of the three tiers -- and the empty prompt is SIMPLE
    with complexity score 0. *)
Theorem analyze_total :
  (forall prompt,
     exists a, analyze prompt = a /\
               0 <= complexityScore (metrics a) <= 100 /\
               0 <= reasoningLevel (metrics a) <= 10 /\
               (tier a = SIMPLE \/ tier a = MEDIUM \/ tier a = COMPLEX)) /\
  tier (analyze []) = SIMPLE /\
  complexityScore (metrics (analyze [])) = 0 /\
  tokens (metrics (analyze [])) = 0 /\
  reasoning (analyze []) = [SimpleQuery].
Proof.
  split.
  - intros prompt. exists (analyze prompt). split; [reflexivity|].
    split; [apply calculateComplexity_bounds|].
    split; [apply assessReasoning_bounds|].
    destruct (tier (analyze prompt)); auto.
  - repeat split.
Qed.

(** ** Growth of the score when text is appended *)

Lemma count_separators_cons c s :
  count_separators 0 (c :: s)
  = match separator_here (c :: s) with
    | Some n => S (count_separators (Nat.pred n) s)
    | None => count_separators 0 s
    end.
Proof. reflexivity. Qed.

Lemma digits_then_dot_cons c s :
  digits_then_dot (c :: s)
  = if is_digit c then
      if starts_with (lit ".") s then Some 2%nat
      else option_map S (digits_then_dot s)
    else None.
Proof. reflexivity. Qed.

Lemma first_keyword_Some ws s n :
  first_keyword ws s = Some n ->
  exists w, In w ws /\ starts_with w s = true.
Proof.
  induction ws as [|w ws IH]; simpl; [discriminate|].
  unfold keyword_here. destruct (starts_with w s) eqn:E.
  - eauto.
  - intros H. destruct (IH H) as (v & Hv & Hs). eauto.
Qed.

Lemma first_keyword_None ws s w :
  first_keyword ws s = None -> In w ws -> starts_with w s = false.
Proof.
  induction ws as [|v ws IH]; simpl; [easy|].
  unfold keyword_here. destruct (starts_with v s) eqn:E; [discriminate|].
  intros H [<-|Hw]; auto.
Qed.

Lemma digit_not_dot d : is_digit d = true -> Ascii.eqb "." d = false.
Proof.
  intros H. destruct (Ascii.eqb_spec "."%char d) as [<-|]; [|reflexivity].
  discriminate H.
Qed.

Lemma all_digits_no_dot s :
  forallb is_digit s = true -> digits_then_dot s = None.
Proof.
  induction s as [|c s IH]; [reflexivity|].
  intros H. simpl in H. apply andb_true_iff in H as [Hc Hs].
  cbn [digits_then_dot]. rewrite Hc, (IH Hs).
  destruct s as [|d s]; [reflexivity|].
  simpl in Hs. apply andb_true_iff in Hs as [Hd _].
  cbn [starts_with list_ascii_of_string].
  now rewrite (digit_not_dot _ Hd).
Qed.

Lemma digit_no_keyword ws c s :
  forallb starts_with_nondigit ws = true ->
  is_digit c = true ->
  first_keyword ws (c :: s) = None.
Proof.
  intros Hws Hc. induction ws as [|w ws IH]; simpl; [reflexivity|].
  simpl in Hws. apply andb_true_iff in Hws as [Hw Hws].
  rewrite (IH Hws). unfold keyword_here.
  destruct w as [|a w]; [discriminate|]. simpl in Hw |- *.
  destruct (Ascii.eqb_spec a c) as [->|]; [|reflexivity].
  now rewrite Hc in Hw.
Qed.

Lemma step_words_nondigit : forallb starts_with_nondigit step_words = true.
Proof. reflexivity. Qed.

Lemma step_words_prefix_free : prefix_free step_words = true.
Proof. reflexivity. Qed.

(** No separator lies inside a word of the separator that is cut short. *)
Lemma step_words_prefixes :
  forallb (fun w =>
             forallb (fun p => Nat.eqb (count_separators 0 p) 0)
                     (proper_prefixes w))
          step_words = true.
Proof. reflexivity. Qed.

Lemma all_digits_no_separator s :
  forallb is_digit s = true -> forall k, count_separators k s = O.
Proof.
  induction s as [|c s IH]; intros H k; [reflexivity|].
  pose proof H as Hall. simpl in H. apply andb_true_iff in H as [Hc Hs].
  destruct k as [|k]; [|simpl; now apply IH].
  rewrite count_separators_cons. unfold separator_here.
  rewrite (all_digits_no_dot _ Hall).
  rewrite (digit_no_keyword _ _ _ step_words_nondigit Hc). now apply IH.
Qed.

Section Grow.

Variable x : text.   (* what is appended *)

Lemma count_keywords_app kws w s :
  0 <= w -> count_keywords kws w s <= count_keywords kws w (s ++ x).
Proof.
  intros Hw. induction kws as [|k kws IH]; [reflexivity|].
  rewrite !count_keywords_cons.
  destruct (includes s k) eqn:E.
  - rewrite (JsFacts.includes_app x _ _ E). lia.
  - destruct (includes (s ++ x) k); lia.
Qed.

Lemma dot_head_app d s :
  starts_with (lit ".") ((d :: s) ++ x) = starts_with (lit ".") (d :: s).
Proof. reflexivity. Qed.

Lemma digits_then_dot_app : forall s n,
  digits_then_dot s = Some n -> digits_then_dot (s ++ x) = Some n.
Proof.
  induction s as [|c s IH]; intros n H; [discriminate H|].
  change ((c :: s) ++ x) with (c :: (s ++ x)).
  rewrite digits_then_dot_cons in H |- *.
  destruct (is_digit c); [|discriminate H].
  destruct s as [|d s]; [discriminate H|].
  rewrite dot_head_app.
  destruct (starts_with (lit ".") (d :: s)); [exact H|].
  destruct (digits_then_dot (d :: s)) as [m|] eqn:E; [|discriminate H].
  now rewrite (IH m eq_refl).
Qed.

Lemma digits_then_dot_straddle : forall s n,
  digits_then_dot (s ++ x) = Some n -> digits_then_dot s = None ->
  forallb is_digit s = true.
Proof.
  induction s as [|c s IH]; intros n H1 H2; [reflexivity|].
  change ((c :: s) ++ x) with (c :: (s ++ x)) in H1.
  rewrite digits_then_dot_cons in H1, H2.
  cbn [forallb]. destruct (is_digit c); [|discriminate H1].
  destruct s as [|d s]; [reflexivity|].
  rewrite dot_head_app in H1.
  destruct (starts_with (lit ".") (d :: s)); [discriminate H2|].
  destruct (digits_then_dot ((d :: s) ++ x)) as [m|] eqn:E;
    [|discriminate H1].
  destruct (digits_then_dot (d :: s)) eqn:E'; [discriminate H2|].
  now apply (IH m).
Qed.

Lemma first_keyword_app ws :
  prefix_free ws = true ->
  forall s n, first_keyword ws s = Some n ->
              first_keyword ws (s ++ x) = Some n.
Proof.
  induction ws as [|w ws IH]; simpl; intros Hpf s n; [discriminate|].
  apply andb_true_iff in Hpf as [Hw Hpf].
  unfold keyword_here. destruct (starts_with w s) eqn:E.
  - now rewrite (JsFacts.starts_with_app x _ _ E).
  - intros H. destruct (starts_with w (s ++ x)) eqn:E2; [|now apply IH].
    exfalso. destruct (first_keyword_Some _ _ _ H) as (v & Hv & Hs).
    apply (JsFacts.starts_with_app x) in Hs.
    rewrite List.forallb_forall in Hw. specialize (Hw v Hv).
    apply andb_true_iff in Hw as [Hwv Hvw].
    destruct (JsFacts.starts_with_both _ _ _ E2 Hs) as [C|C];
      rewrite C in *; discriminate.
Qed.

Lemma keyword_head_nondigit w s :
  starts_with_nondigit w = true -> starts_with w s = true ->
  digits_then_dot (s ++ x) = None.
Proof.
  destruct w as [|a w]; [discriminate|]. destruct s as [|c s]; [discriminate|].
  cbn [starts_with_nondigit starts_with]. intros Ha H.
  apply andb_true_iff in H as [->%Ascii.eqb_eq _].
  change ((c :: s) ++ x) with (c :: (s ++ x)).
  rewrite digits_then_dot_cons. now destruct (is_digit c).
Qed.

(** A separator found in the text is found, at the same place and with
    the same extent, in the longer text. *)
Lemma separator_here_app s n :
  separator_here s = Some n -> separator_here (s ++ x) = Some n.
Proof.
  unfold separator_here.
  destruct (digits_then_dot s) as [m|] eqn:E.
  - intros [= <-]. now rewrite (digits_then_dot_app _ _ E).
  - intros H. destruct (first_keyword_Some _ _ _ H) as (w & Hw & Hs).
    pose proof step_words_nondigit as Hnd.
    rewrite List.forallb_forall in Hnd.
    rewrite (keyword_head_nondigit w s (Hnd w Hw) Hs).
    now apply first_keyword_app.
Qed.

Lemma starts_with_straddle w : forall s,
  starts_with w (s ++ x) = true -> starts_with w s = false ->
  In s (proper_prefixes w).
Proof.
  unfold proper_prefixes.
  induction w as [|a w IH]; intros s; [now destruct s|].
  destruct s as [|b s]; intros H1 H2.
  - apply List.in_map_iff. exists O. split; [reflexivity|].
    apply List.in_seq. simpl. lia.
  - simpl in H1, H2. apply andb_true_iff in H1 as [Hab H1].
    rewrite Hab in H2. simpl in H2. apply Ascii.eqb_eq in Hab as ->.
    pose proof (IH s H1 H2) as Hin.
    apply List.in_map_iff in Hin as (k & <- & Hk).
    apply List.in_map_iff. exists (S k). split; [reflexivity|].
    apply List.in_seq in Hk. apply List.in_seq. simpl in *. lia.
Qed.

(** A separator that begins in the text and ends in the appended part:
    the text holds no separator from there on. *)
Lemma separator_straddle s n :
  separator_here s = None -> separator_here (s ++ x) = Some n ->
  count_separators 0 s = O.
Proof.
  unfold separator_here.
  destruct (digits_then_dot s) eqn:E; [discriminate|]. intros Hs.
  destruct (digits_then_dot (s ++ x)) as [m|] eqn:E2.
  - intros _. apply all_digits_no_separator.
    eapply digits_then_dot_straddle; eauto.
  - intros H. destruct (first_keyword_Some _ _ _ H) as (w & Hw & Hws).
    pose proof (first_keyword_None _ _ w Hs Hw) as Hw'.
    pose proof (starts_with_straddle w s Hws Hw') as Hin.
    pose proof step_words_prefixes as Hp.
    rewrite List.forallb_forall in Hp. specialize (Hp w Hw).
    rewrite List.forallb_forall in Hp. specialize (Hp s Hin).
    now apply Nat.eqb_eq in Hp.
Qed.

Lemma count_separators_app : forall s k,
  (count_separators k s <= count_separators k (s ++ x))%nat.
Proof.
  induction s as [|c s IH]; intros k; [simpl; lia|].
  destruct k as [|k]; [|simpl; apply IH].
  change ((c :: s) ++ x) with (c :: (s ++ x)).
  rewrite !count_separators_cons.
  change (c :: (s ++ x)) with ((c :: s) ++ x).
  destruct (separator_here (c :: s)) as [n|] eqn:E.
  - rewrite (separator_here_app _ _ E). specialize (IH (Nat.pred n)). lia.
  - destruct (separator_here ((c :: s) ++ x)) as [n|] eqn:E2; [|apply IH].
    pose proof (separator_straddle _ _ E E2) as H0.
    rewrite count_separators_cons, E in H0. lia.
Qed.

End Grow.

Lemma split_length_app s x : split_length s <= split_length (s ++ x).
Proof.
  unfold split_length. rewrite JsFacts.canon_app.
  pose proof (count_separators_app (canon x) (canon s) 0). lia.
Qed.

Lemma assessReasoning_app s x :
  assessReasoning s <= assessReasoning (s ++ x).
Proof.
  unfold assessReasoning. rewrite JsFacts.toLowerCase_app.
  pose proof (count_keywords_app (toLowerCase x) reasoningKeywords 1
                (toLowerCase s) ltac:(lia)).
  pose proof (split_length_app s x). lia.
Qed.

Lemma countQuestions_app s x :
  countQuestions s <= countQuestions (s ++ x).
Proof.
  rewrite !countQuestions_filter, List.filter_app, List.length_app. lia.
Qed.

Lemma text_length_app s x :
  text_length (s ++ x) = text_length s + text_length x.
Proof. unfold text_length. rewrite List.length_app. lia. Qed.

(** A prompt that contains code still does after text was appended that
    does not begin with a word character. *)
Lemma detectCode_app s x :
  head_is_word x = false ->
  detectCode s = true -> detectCode (s ++ x) = true.
Proof.
  intros Hx. unfold detectCode. rewrite !List.existsb_exists.
  intros (pattern & Hin & Hp). exists pattern. split; [exact Hin|].
  unfold codePatterns in Hin. simpl in Hin.
  repeat (destruct Hin as [<-|Hin];
          [first [ now apply JsFacts.includes_app
                 | now apply JsFacts.test_word_i_app
                 | now apply JsFacts.test_brace_block_app ]|]).
  destruct Hin.
Qed.

(** The score does not drop when at least 1000 code units are appended
    and the code flag is not lost, or is lost by a short prompt. *)
Lemma calculateComplexity_app s x :
  1000 <= text_length x ->
  text_length s <= 500 \/ (detectCode s = true -> detectCode (s ++ x) = true) ->
  calculateComplexity s <= calculateComplexity (s ++ x).
Proof.
  intros Hx Hcode.
  destruct s as [|c s'].
  { (* the empty prompt scores 0 *)
    change (calculateComplexity []) with 0. apply calculateComplexity_bounds. }
  remember (c :: s') as s eqn:Es.
  assert (Hs : 1 <= text_length s)
    by (subst s; unfold text_length; simpl; lia).
  clear Es c s'.
  pose proof (assessReasoning_app s x) as Hr.
  pose proof (count_keywords_app (toLowerCase x) complexKeywords 5
                (toLowerCase s) ltac:(lia)) as Hk.
  pose proof (countQuestions_app s x) as Hq.
  unfold calculateComplexity.
  rewrite JsFacts.toLowerCase_app, text_length_app, !Z.gtb_ltb.
  destruct (Z.ltb_spec 500 (text_length s + text_length x)) as [_|F];
    [|exfalso; clear - Hx Hs F; lia].
  destruct (Z.ltb_spec 1000 (text_length s + text_length x)) as [_|F];
    [|exfalso; clear - Hx Hs F; lia].
  destruct (detectCode s) eqn:Ec, (detectCode (s ++ x)) eqn:Ec'.
  - clear Hcode.
    destruct (Z.ltb_spec 1 (countQuestions s)),
      (Z.ltb_spec 1 (countQuestions (s ++ x))),
      (Z.ltb_spec 500 (text_length s)),
      (Z.ltb_spec 1000 (text_length s)); lia.
  - destruct Hcode as [Hlen|Hcode]; [|now specialize (Hcode eq_refl)].
    destruct (Z.ltb_spec 1 (countQuestions s)),
      (Z.ltb_spec 1 (countQuestions (s ++ x))),
      (Z.ltb_spec 500 (text_length s)),
      (Z.ltb_spec 1000 (text_length s)); lia.
  - clear Hcode.
    destruct (Z.ltb_spec 1 (countQuestions s)),
      (Z.ltb_spec 1 (countQuestions (s ++ x))),
      (Z.ltb_spec 500 (text_length s)),
      (Z.ltb_spec 1000 (text_length s)); lia.
  - clear Hcode.
    destruct (Z.ltb_spec 1 (countQuestions s)),
      (Z.ltb_spec 1 (countQuestions (s ++ x))),
      (Z.ltb_spec 500 (text_length s)),
      (Z.ltb_spec 1000 (text_length s)); lia.
Qed.

(** C2 as the code has it: appending at least 1000 code units does not
    lower the complexity score, provided the prompt has at most 500 code
    units or the longer text still matches a code pattern whenever the
    prompt does. *)
Theorem calculateComplexity_grows s x :
  1000 <= text_length x ->
  text_length s <= 500 \/ (detectCode s = true -> detectCode (s ++ x) = true) ->
  calculateComplexity s <= calculateComplexity (s ++ x).
Proof. apply calculateComplexity_app. Qed.

(** In terms of the appended text alone: it is enough that it does not
    begin with a letter, a digit or an underscore. *)
Corollary calculateComplexity_grows_nonword s x :
  1000 <= text_length x ->
  head_is_word x = false ->
  calculateComplexity s <= calculateComplexity (s ++ x).
Proof.
  intros Hx Hw. apply calculateComplexity_app; [exact Hx|].
  right. now apply detectCode_app.
Qed.

Lemma calculateComplexity_grows_witness :
  let s := lit "Explain this: const x = 1" in
  let x := repeat " "%char 1000 in
  1000 <= text_length x /\
  (text_length s <= 500 \/
   (detectCode s = true -> detectCode (s ++ x) = true)) /\
  calculateComplexity s <= calculateComplexity (s ++ x).
Proof.
  assert (H1 : 1000 <= text_length (repeat " "%char 1000))
    by (vm_compute; discriminate).
  assert (H2 : text_length (lit "Explain this: const x = 1") <= 500 \/
               (detectCode (lit "Explain this: const x = 1") = true ->
                detectCode (lit "Explain this: const x = 1"
                            ++ repeat " "%char 1000) = true))
    by (left; vm_compute; discriminate).
  split; [exact H1|]. split; [exact H2|].
  exact (calculateComplexity_grows (lit "Explain this: const x = 1")
           (repeat " "%char 1000) H1 H2).
Defined.

(** C2 as stated fails: a prompt of 1003 code units that ends in the word
    [let] scores 65 (40 for its length, 25 for code); with a thousand
    letters appended the word boundary after [let] is gone, no code
    pattern matches, and the score is 40. *)
Lemma calculateComplexity_not_monotone :
  let s := repeat " "%char 1000 ++ lit "let" in
  let x := repeat "a"%char 1000 in
  1000 <= text_length x /\
  calculateComplexity s = 65 /\
  calculateComplexity (s ++ x) = 40 /\
  ~ (calculateComplexity (s ++ x) >= calculateComplexity s).
Proof.
  assert (E1 : calculateComplexity (repeat " "%char 1000 ++ lit "let") = 65)
    by (vm_compute; reflexivity).
  assert (E2 : calculateComplexity
                 ((repeat " "%char 1000 ++ lit "let")
                  ++ repeat "a"%char 1000) = 40)
    by (vm_compute; reflexivity).
  cbv zeta. rewrite E1, E2. repeat split; try lia.
  vm_compute. discriminate.
Qed.

End AnalyzerFacts.

(* ===================================================================== *)
(** * Properties of the ledger *)
(* ===================================================================== *)

Module TrackerFacts.
Import Js Tracker.

(** ** Sequence ids *)

Lemma ids_from_nil k : ids_from k [].
Proof. intros i r H. rewrite lookup_nil in H. discriminate. Qed.

Lemma ids_from_tail k x l : ids_from k (x :: l) -> ids_from (k + 1) l.
Proof.
  intros H i r Hi. specialize (H (S i) r Hi). lia.
Qed.

Lemma ids_from_snoc l request :
  ids_from 1 l ->
  ids_from 1 (l ++ [ {| id := array_length l + 1; entry := request |} ]).
Proof.
  intros H i r Hi.
  apply lookup_app_Some in Hi as [Hi | [Hlen Hi]].
  - now apply H.
  - destruct (i - List.length l)%nat as [|j] eqn:E; simpl in Hi.
    + injection Hi as <-. unfold array_length. simpl. lia.
    + rewrite lookup_nil in Hi. discriminate.
Qed.

Lemma ids_from_sorted l : forall k,
  ids_from k l -> StronglySorted Z.lt (List.map id l).
Proof.
  induction l as [|x l IH]; intros k H; simpl.
  - constructor.
  - constructor.
    + apply (IH (k + 1)). eapply ids_from_tail, H.
    + apply List.Forall_forall. intros z Hz.
      apply List.in_map_iff in Hz as [r [<- Hr]].
      apply list_elem_of_In, list_elem_of_lookup in Hr as [i Hi].
      pose proof (H 0%nat x eq_refl) as Hx.
      pose proof (H (S i) r Hi) as Hr. lia.
Qed.

Lemma reachable_ids t : reachable t -> ids_from 1 (requests t).
Proof.
  induction 1 as [|t request _ IH|t _ _]; simpl.
  - apply ids_from_nil.
  - now apply ids_from_snoc.
  - apply ids_from_nil.
Qed.

Lemma ids_from_bound l r :
  ids_from 1 l -> r ∈ l -> 1 <= id r <= array_length l.
Proof.
  intros H Hr. apply list_elem_of_lookup in Hr as [i Hi].
  pose proof (lookup_lt_Some _ _ _ Hi) as Hlt.
  rewrite (H i r Hi). unfold array_length. lia.
Qed.

(** ** The last records *)

Lemma slice_from_nonneg {A : Type} (l : list A) :
  slice_from 0 l = l.
Proof.
  unfold slice_from. simpl.
  replace (Z.min 0 (Z.of_nat (List.length l))) with 0 by lia.
  reflexivity.
Qed.

(** For a limit of at least one, [getRecentRequests] is the last [limit]
    records: the ledger without its first [length - limit] records. *)
Lemma getRecentRequests_positive t (limit : nat) :
  (1 <= limit)%nat ->
  getRecentRequests t (Z.of_nat limit)
  = drop (List.length (requests t) - limit) (requests t).
Proof.
  intros H. unfold getRecentRequests, slice_from.
  destruct (Z.ltb_spec (- Z.of_nat limit) 0) as [_|Hge]; [|lia].
  f_equal. lia.
Qed.

(** ** Statistics *)

Lemma filter_split_length {A : Type} (f : A -> bool) (l : list A) :
  (List.length l
   = List.length (List.filter f l)
     + List.length (List.filter (fun x => negb (f x)) l))%nat.
Proof.
  induction l as [|x l IH]; simpl; [reflexivity|].
  destruct (f x); simpl; lia.
Qed.

(** With at least one successful record the counts are those of the whole
    ledger. *)
Lemma calculateStats_counts t :
  successful t <> [] ->
  totalRequests (calculateStats t) = array_length (requests t) /\
  successfulRequests (calculateStats t) = array_length (successful t) /\
  failedRequests (calculateStats t) = Some (array_length (failed t)).
Proof.
  intros H. unfold calculateStats. fold (successful t).
  destruct (Z.eqb_spec (array_length (successful t)) 0) as [E|_].
  - exfalso. apply H. unfold array_length in E.
    destruct (successful t); [reflexivity|simpl in E; lia].
  - simpl. repeat split. f_equal. unfold array_length, successful, failed.
    rewrite (filter_split_length (fun r => success (entry r)) (requests t)).
    lia.
Qed.

(** C5, evaluated where the code departs from it: a ledger holding one
    failed record and no successful one is reported as empty --
    [totalRequests] is 0 although one record was appended, and
    [failedRequests] is not part of the result at all. *)
Theorem calculateStats_only_failures :
  let t := logRequest new_CostTracker failed_attempt in
  array_length (requests t) = 1 /\
  array_length (failed t) = 1 /\
  totalRequests (calculateStats t) = 0 /\
  failedRequests (calculateStats t) = None.
Proof. repeat split. Qed.

(** C6, evaluated where the code departs from it: with one successful
    record of cost 0 and a positive token volume the actual total cost is
    0 and the baseline is positive; the guard of the multiplier looks at
    the baseline, the division by zero is performed, and the multiplier is
    infinite instead of 0.  The percentage, guarded on its own divisor, is
    finite. *)
Theorem calculateStats_zero_cost_multiplier :
  let stats := calculateStats (logRequest new_CostTracker free_attempt) in
  totalCost stats = Fin 0 /\
  gt0 (baselineCost stats) = true /\
  savingsMultiplier stats = Some PosInf /\
  is_finite (savingsPercent stats) = true.
Proof. vm_compute. repeat split. Qed.

(** C8, evaluated where the code departs from it: a limit of 0 gives the
    whole ledger instead of no record, because [slice(-0)] is
    [slice(0)]. *)
Theorem getRecentRequests_zero :
  (forall t, getRecentRequests t 0 = requests t) /\
  getRecentRequests (logRequest new_CostTracker failed_attempt) 0 <> [].
Proof.
  split.
  - intros t. unfold getRecentRequests. apply slice_from_nonneg.
  - discriminate.
Qed.

(** C9: in every ledger state reached through [logRequest] and [clear],
    the i-th record (counted from 1) has id i, the ids are strictly
    increasing along the ledger, and [logRequest] leaves the records
    present as they are, adding one record whose id is greater than every
    id present. *)
Theorem logRequest_sequence_ids t :
  reachable t ->
  (forall (i : nat) r, requests t !! i = Some r -> id r = Z.of_nat i + 1) /\
  StronglySorted Z.lt (List.map id (requests t)) /\
  (forall request,
     exists r', requests (logRequest t request) = requests t ++ [r'] /\
                entry r' = request /\
                id r' = array_length (requests t) + 1 /\
                forall r, r ∈ requests t -> id r < id r').
Proof.
  intros H. pose proof (reachable_ids t H) as Hids. repeat split.
  - intros i r Hi. rewrite (Hids i r Hi). lia.
  - eapply ids_from_sorted, Hids.
  - intros request. eexists. repeat split.
    intros r Hr. simpl. pose proof (ids_from_bound _ _ Hids Hr). lia.
Qed.

Lemma logRequest_sequence_ids_witness :
  let t := logRequest (clear (logRequest new_CostTracker failed_attempt)) free_attempt in
  reachable t /\
  (forall (i : nat) r, requests t !! i = Some r -> id r = Z.of_nat i + 1) /\
  StronglySorted Z.lt (List.map id (requests t)) /\
  (forall request,
     exists r', requests (logRequest t request) = requests t ++ [r'] /\
                entry r' = request /\
                id r' = array_length (requests t) + 1 /\
                forall r, r ∈ requests t -> id r < id r').
Proof.
  assert (R : reachable
                (logRequest (clear (logRequest new_CostTracker failed_attempt))
                            free_attempt))
    by (repeat constructor).
  split; [exact R | exact (logRequest_sequence_ids _ R)].
Defined.

End TrackerFacts.

(* ===================================================================== *)
(** * Properties of the dispatcher *)
(* ===================================================================== *)

Module RouterFacts.
Import Js Router.

(** ** The fallback chain against the escalation order *)

Lemma fallback_get_next tier nextTier :
  next_tier tier = Some nextTier ->
  fallback_get tier = Own (Some nextTier) /\
  truthy nextTier = true /\
  is_inherited_key nextTier = false.
Proof.
  unfold next_tier.
  destruct (String.eqb_spec tier "SIMPLE") as [->|_].
  { intros [= <-]. repeat split. }
  destruct (String.eqb_spec tier "MEDIUM") as [->|_].
  { intros [= <-]. repeat split. }
  discriminate.
Qed.

Lemma fallback_get_none tier :
  next_tier tier = None ->
  is_inherited_key tier = false ->
  fallback_get tier = Own None \/ fallback_get tier = Undefined.
Proof.
  unfold next_tier.
  destruct (String.eqb_spec tier "SIMPLE") as [->|H1]; [discriminate|].
  destruct (String.eqb_spec tier "MEDIUM") as [->|H2]; [discriminate|].
  intros _ Hk.
  destruct (String.eqb_spec tier "COMPLEX") as [->|H3].
  { left. reflexivity. }
  right. unfold fallback_get, fallbackChain.
  rewrite !lookup_insert_ne by congruence.
  rewrite lookup_empty, Hk. reflexivity.
Qed.

Lemma chain_from_next tier nextTier :
  next_tier tier = Some nextTier ->
  chain_from tier = tier :: chain_from nextTier.
Proof.
  unfold next_tier, chain_from.
  destruct (String.eqb_spec tier "SIMPLE") as [->|_].
  { intros [= <-]. reflexivity. }
  destruct (String.eqb_spec tier "MEDIUM") as [->|_].
  { intros [= <-]. reflexivity. }
  discriminate.
Qed.

Lemma chain_from_head tier : exists rest, chain_from tier = tier :: rest.
Proof.
  unfold chain_from.
  destruct (String.eqb_spec tier "SIMPLE") as [->|_]; [eauto|].
  destruct (String.eqb_spec tier "MEDIUM") as [->|_]; eauto.
Qed.

Lemma chain_from_NoDup tier : NoDup (chain_from tier).
Proof.
  unfold chain_from.
  destruct (String.eqb_spec tier "SIMPLE") as [->|_].
  { apply (bool_decide_unpack _). reflexivity. }
  destruct (String.eqb_spec tier "MEDIUM") as [->|_].
  { apply (bool_decide_unpack _). reflexivity. }
  apply NoDup_singleton.
Qed.

Lemma initial_tier_truthy forceTier analysis :
  truthy (initial_tier forceTier analysis) = true.
Proof.
  unfold initial_tier.
  destruct forceTier as [t|].
  - destruct (truthy t) eqn:E; [exact E|].
    now destruct (Analyzer.tier analysis).
  - now destruct (Analyzer.tier analysis).
Qed.

(** ** One turn of the loop *)

Section Loop.

Variable r : ModelRouter.
Variable env : Env.
Variable prompt : text.
Variable analysis : Analyzer.Analysis.
Variable startTime : Z.

Let turn := turn r env prompt analysis startTime.
Let route_loop := route_loop r env prompt analysis startTime.
Let run := run r env prompt analysis startTime.

Lemma failure_entry_logged st tier model n message :
  failure_logged st tier n message
    (log (invoke st tier)
         (failure_entry env prompt startTime tier model n message)).
Proof.
  eexists. split; [reflexivity|]. repeat split.
Qed.

(** A rejection whose message cannot be read: the turn ends the call
    with the TypeError, the backend invoked and nothing logged. *)
Lemma turn_unreadable tier n st model reason e :
  models_get r tier = Own model ->
  executeModel r env n tier model prompt = Rejected reason ->
  read_message reason = Throw e ->
  turn tier n st = (Finish (Threw e), invoke st tier).
Proof.
  intros Hm He Hr. unfold turn, Router.turn. now rewrite Hm, He, Hr.
Qed.

(** A failed attempt: the record is appended first, and the turn then
    falls back exactly when a next tier exists and fewer than three
    attempts were made. *)
Lemma turn_rejected tier n st model reason message :
  is_inherited_key tier = false ->
  models_get r tier = Own model ->
  executeModel r env n tier model prompt = Rejected reason ->
  read_message reason = Normal message ->
  let st1 := log (invoke st tier)
                 (failure_entry env prompt startTime tier model n message) in
  turn tier n st
  = (match next_tier tier with
     | Some nextTier =>
         if n <? 3 then FallBack nextTier message else Break message
     | None => Break message
     end, st1).
Proof.
  intros Hk Hm He Hr. unfold turn, Router.turn. rewrite Hm, He, Hr.
  destruct (next_tier tier) as [nextTier|] eqn:Hn.
  - destruct (fallback_get_next _ _ Hn) as (-> & -> & _).
    simpl. now destruct (n <? 3).
  - destruct (fallback_get_none _ Hn Hk) as [-> | ->]; reflexivity.
Qed.

Lemma all_failed_error_text message :
  all_failed_error message
  = {| err_name := "Error";
       err_message :=
         "All models failed. Last error: "
         +:+ default "undefined"%string message |}.
Proof. now destruct message. Qed.

(** The loop is a run of the state machine; three turns are enough. *)
Lemma route_loop_run (fuel : nat) : forall tier n lastError st,
  truthy tier = true ->
  is_inherited_key tier = false ->
  n < 3 <= n + Z.of_nat fuel ->
  run tier n st (route_loop fuel tier n lastError st).1
                (route_loop fuel tier n lastError st).2.
Proof.
  induction fuel as [|fuel IH]; intros tier n lastError st Ht Hk Hn.
  { lia. }
  unfold route_loop. simpl. rewrite Ht. fold route_loop.
  destruct (models_get r tier) as [model| |] eqn:Hm.
  - destruct (executeModel r env (n + 1) tier model prompt)
      as [response|reason] eqn:He.
    + unfold Router.turn. rewrite Hm, He. simpl.
      now apply run_success.
    + destruct (read_message reason) as [message|e] eqn:Hr.
      * pose proof (turn_rejected tier (n + 1) st model reason message
                      Hk Hm He Hr) as Hturn.
        unfold turn in Hturn. simpl in Hturn. rewrite Hturn. clear Hturn.
        destruct (next_tier tier) as [nextTier|] eqn:Hnext.
        -- destruct (Z.ltb_spec (n + 1) 3) as [Hlt|Hge].
           ++ destruct (fallback_get_next _ _ Hnext) as (_ & Ht' & Hk').
              eapply run_fall_back; eauto using failure_entry_logged.
              apply IH; [assumption|assumption|lia].
           ++ cbn [fst snd]. rewrite all_failed_error_text.
              eapply run_exhausted; eauto using failure_entry_logged.
        -- cbn [fst snd]. rewrite all_failed_error_text.
           eapply run_exhausted; eauto using failure_entry_logged.
      * pose proof (turn_unreadable tier (n + 1) st model reason e
                      Hm He Hr) as Hturn.
        unfold turn in Hturn. rewrite Hturn. cbn [fst snd].
        eapply run_unreadable; eauto.
  - unfold Router.turn. rewrite Hm. simpl.
    unfold models_get in Hm. destruct (models r !! tier); [discriminate|].
    rewrite Hk in Hm. discriminate.
  - unfold Router.turn. rewrite Hm. simpl. now apply run_no_model.
Qed.

Lemma read_message_throw reason e :
  read_message reason = Throw e ->
  (reason = ThrownUndefined /\ e = no_message_error false) \/
  (reason = ThrownNull /\ e = no_message_error true).
Proof.
  destruct reason; cbn; intros [= <-]; [left|right]; now split.
Qed.

Lemma ended_unlogged_intro of_null :
  ended_unlogged (Threw (no_message_error of_null)).
Proof.
  destruct of_null; [exists "null"%string|exists "undefined"%string];
    (split; [auto|reflexivity]).
Qed.

Lemma ended_unlogged_inv o :
  ended_unlogged o -> exists of_null, o = Threw (no_message_error of_null).
Proof.
  intros (what & [->| ->] & ->); [now exists false|now exists true].
Qed.

Lemma no_message_error_other of_null :
  no_message_error of_null <> undefined_model_error /\
  err_name (no_message_error of_null) = "TypeError"%string.
Proof. now destruct of_null. Qed.

(** What every run does to the state: it invokes a beginning of the
    chain of its first tier, and appends one record per invocation --
    but for an invocation rejected with [undefined] or [null], which
    ends the run with nothing logged. *)
Lemma run_trace tier n st o st' :
  run tier n st o st' ->
  exists recs inv,
    Tracker.requests (tracker st')
    = Tracker.requests (tracker st) ++ recs /\
    invoked st' = invoked st ++ inv /\
    inv `prefix_of` chain_from tier /\
    ((inv = List.map (fun x => Tracker.tier (Tracker.entry x)) recs /\
      ~ ended_unlogged o) \/
     (exists t,
        inv = List.map (fun x => Tracker.tier (Tracker.entry x)) recs ++ [t]
        /\ ended_unlogged o)).
Proof.
  induction 1 as
    [ tier n st Hm
    | tier n st model response Hm He
    | tier n st model reason e Hm He Hr
    | tier n st model reason message st1 nextTier o st2
        Hm He Hr Hlog Hnext Hn _ IH
    | tier n st model reason message st1 Hm He Hr Hlog Hn ].
  - exists [], []. rewrite !app_nil_r. repeat split; [apply prefix_nil|].
    left. split; [reflexivity|]. intros [[] [=]]%ended_unlogged_inv.
  - eexists [_], [tier]. simpl. repeat split.
    + destruct (chain_from_head tier) as [rest ->].
      apply prefix_cons, prefix_nil.
    + left. split; [reflexivity|]. intros [b [=]]%ended_unlogged_inv.
  - exists [], [tier]. rewrite app_nil_r. repeat split.
    + destruct (chain_from_head tier) as [rest ->].
      apply prefix_cons, prefix_nil.
    + right. exists tier. split; [reflexivity|].
      destruct (read_message_throw _ _ Hr) as [[_ ->]|[_ ->]];
        apply ended_unlogged_intro.
  - destruct Hlog as (e & -> & Htier & _).
    destruct IH as (recs & inv & Hreq & Hinv & Hpre & Hrecs).
    simpl in Hreq, Hinv.
    exists ({| Tracker.id :=
                 Tracker.array_length (Tracker.requests (tracker st)) + 1;
               Tracker.entry := e |} :: recs), (tier :: inv).
    rewrite Hreq, Hinv, <- !app_assoc. simpl. repeat split.
    + rewrite (chain_from_next _ _ Hnext). now apply prefix_cons.
    + rewrite Htier.
      destruct Hrecs as [[-> Hno]|(t & -> & Hun)]; [left|right]; eauto.
  - destruct Hlog as (e & -> & Htier & _).
    exists [ {| Tracker.id :=
                  Tracker.array_length (Tracker.requests (tracker st)) + 1;
                Tracker.entry := e |} ], [tier].
    simpl. repeat split.
    + destruct (chain_from_head tier) as [rest ->].
      apply prefix_cons, prefix_nil.
    + rewrite Htier. left. split; [reflexivity|]. intros [[] [=]]%ended_unlogged_inv.
Qed.

Lemma run_ends tier n st o st' :
  run tier n st o st' ->
  (exists result, o = Returned result) \/ (exists e, o = Threw e).
Proof. induction 1; eauto. Qed.

End Loop.

(** ** The whole call *)

Lemma models_get_undefined r tier :
  models_get r tier = Undefined <->
  models r !! tier = None /\ is_inherited_key tier = false.
Proof.
  unfold models_get. destruct (models r !! tier); [intuition discriminate|].
  destruct (is_inherited_key tier); intuition discriminate.
Qed.

(** In a router as the constructor makes it, every name that is neither
    one of the three tiers nor a member of [Object.prototype] has no
    model. *)
Lemma models_get_new_undefined client tracker tier :
  tier ∉ Tracker.tier_names ->
  is_inherited_key tier = false ->
  models_get (new_ModelRouter client tracker) tier = Undefined.
Proof.
  intros Hn Hk. apply models_get_undefined. split; [|exact Hk].
  simpl. unfold default_models, Tracker.tier_names in *.
  rewrite !lookup_insert_ne by set_solver. apply lookup_empty.
Qed.

Lemma route_unfold r env prompt forceTier :
  route r env prompt forceTier
  = let p := Router.route_loop r env prompt (Analyzer.analyze prompt)
               (now env 0) 3
               (initial_tier forceTier (Analyzer.analyze prompt)) 0 None
               {| tracker := costTracker r; invoked := [] |} in
    (p.1, tracker p.2, invoked p.2).
Proof.
  unfold route.
  now destruct (Router.route_loop r env prompt (Analyzer.analyze prompt)
                  (now env 0) 3
                  (initial_tier forceTier (Analyzer.analyze prompt)) 0 None
                  {| tracker := costTracker r; invoked := [] |}).
Qed.

(** A [route] call is a run of the dispatch state machine, as long as its
    first tier is not the name of a member of [Object.prototype]: a
    failed attempt whose rejection has a readable message first appends
    its failure record, then moves to the next tier of
    SIMPLE -> MEDIUM -> COMPLEX exactly when there is one and fewer than
    three attempts were made, and otherwise throws the error whose text
    is "All models failed. Last error: " and that message.  The call ends
    by returning or throwing, and the tiers it invokes are a beginning of
    the chain of its first tier, so no tier is invoked twice. *)
Lemma route_is_run r env prompt forceTier :
  let tier0 := initial_tier forceTier (Analyzer.analyze prompt) in
  is_inherited_key tier0 = false ->
  let res := route r env prompt forceTier in
  run r env prompt (Analyzer.analyze prompt) (now env 0) tier0 0
      {| tracker := costTracker r; invoked := [] |}
      res.1.1
      {| tracker := res.1.2; invoked := res.2 |} /\
  ((exists result, res.1.1 = Returned result) \/
   (exists e, res.1.1 = Threw e)) /\
  (exists recs,
     Tracker.requests res.1.2 = Tracker.requests (costTracker r) ++ recs /\
     ((res.2 = List.map (fun x => Tracker.tier (Tracker.entry x)) recs /\
       ~ ended_unlogged res.1.1) \/
      (exists t,
         res.2
         = List.map (fun x => Tracker.tier (Tracker.entry x)) recs ++ [t] /\
         ended_unlogged res.1.1))) /\
  res.2 `prefix_of` chain_from tier0 /\
  NoDup res.2.
Proof.
  intros tier0 Hk res.
  pose proof (route_loop_run r env prompt (Analyzer.analyze prompt)
                (now env 0) 3 tier0 0 None
                {| tracker := costTracker r; invoked := [] |}
                (initial_tier_truthy _ _) Hk ltac:(lia)) as Hrun.
  subst res. rewrite route_unfold. fold tier0. cbv zeta.
  set (p := Router.route_loop r env prompt (Analyzer.analyze prompt)
              (now env 0) 3 tier0 0 None
              {| tracker := costTracker r; invoked := [] |}) in *.
  clearbody p. destruct p as [o [t inv]]. cbn [fst snd tracker invoked] in *.
  destruct (run_trace _ _ _ _ _ _ _ _ _ _ Hrun)
    as (recs & inv' & Hreq & Hinv & Hpre & Hrecs).
  cbn [tracker invoked app] in Hreq, Hinv. subst inv.
  split; [exact Hrun|]. split; [eapply run_ends, Hrun|].
  split; [exists recs; split; [exact Hreq|exact Hrecs]|].
  split; [exact Hpre|].
  destruct Hpre as [k Hk']. pose proof (chain_from_NoDup tier0) as Hnd.
  rewrite Hk' in Hnd. now apply NoDup_app in Hnd as (? & _).
Qed.

Lemma initial_tier_of_tier forceTier analysis :
  is_inherited_key
    (initial_tier (option_map Analyzer.tier_key forceTier) analysis) = false.
Proof.
  destruct forceTier as [[]|]; try reflexivity.
  unfold initial_tier, option_map. now destruct (Analyzer.tier analysis).
Qed.

(** C1: the claim asks that every failed backend attempt is logged
    before the fallback decision and that the call then falls back or
    throws the all-models-failed error.  A backend whose call is
    rejected with [undefined] breaks this: for every prompt, clock and
    ledger, [route] then throws the TypeError of reading [message] of
    [undefined] out of its [catch] block, with the backend of the
    classifier's tier invoked once, no record appended and no fallback
    tried; the error is not the all-models-failed error. *)
Theorem route_undefined_rejection env prompt tracker :
  let r := new_ModelRouter (Some (rejecting_client ThrownUndefined))
                           tracker in
  let res := route r env prompt None in
  res.1.1
  = Threw {| err_name := "TypeError";
             err_message :=
               "Cannot read properties of undefined (reading 'message')" |}
  /\
  res.1.2 = costTracker r /\
  res.2 = [Analyzer.tier_key (Analyzer.tier (Analyzer.analyze prompt))] /\
  (forall message : string,
     res.1.1
     <> Threw {| err_name := "Error";
                 err_message :=
                   "All models failed. Last error: " +:+ message |}).
Proof.
  cbv zeta. rewrite route_unfold. cbv zeta.
  unfold initial_tier.
  generalize (Analyzer.analyze prompt) as analysis. intros analysis.
  destruct (Analyzer.tier analysis);
    (repeat split; [intros message; discriminate]).
Qed.

(** A backend rejected with a value that has no [message], a thrown
    string for one: every attempt is logged with no error text, and the
    terminal error prints [undefined] for the message. *)
Example route_rejected_without_message :
  let r := new_ModelRouter (Some (rejecting_client NoMessage)) None in
  let res := route r calm_env (lit "hello?") None in
  res.1.1
  = Threw {| err_name := "Error";
             err_message := "All models failed. Last error: undefined" |} /\
  res.2 = ["SIMPLE"; "MEDIUM"; "COMPLEX"]%string /\
  List.map (fun x => Tracker.error (Tracker.entry x))
           (Tracker.requests res.1.2) = [None; None; None].
Proof. vm_compute. repeat split. Qed.

(** The sample call: the demo backend fails for SIMPLE and for MEDIUM and
    answers for COMPLEX; three records, the last one successful. *)
Example route_escalates_twice :
  let res := route (new_ModelRouter None None) rough_env (lit "hello?") None in
  (exists result, res.1.1 = Returned result /\ res_tier result = "COMPLEX"%string
                  /\ res_attempts result = 3) /\
  res.2 = ["SIMPLE"; "MEDIUM"; "COMPLEX"]%string /\
  List.map (fun x => Tracker.success (Tracker.entry x))
           (Tracker.requests res.1.2) = [false; false; true].
Proof. vm_compute. split; [eexists; repeat split|]. repeat split. Qed.

(** C4 as the code has it: [getModelInfo] is a property read.  It never
    raises; for a tier that is a key of [models] it gives that tier's
    configuration, and for a name that is neither a key of [models] nor a
    member of [Object.prototype] it gives [undefined]. *)
Theorem getModelInfo_reads r tier :
  (forall e, getModelInfo r tier <> Throw e) /\
  (forall m, models r !! tier = Some m ->
             getModelInfo r tier = Normal (Own m)) /\
  (models r !! tier = None -> is_inherited_key tier = false ->
   getModelInfo r tier = Normal Undefined).
Proof.
  unfold getModelInfo, models_get. repeat split.
  - discriminate.
  - now intros m ->.
  - now intros -> ->.
Qed.

Lemma getModelInfo_reads_witness :
  (exists m, models (new_ModelRouter None None) !! "COMPLEX"%string = Some m /\
             getModelInfo (new_ModelRouter None None) "COMPLEX" = Normal (Own m)) /\
  models (new_ModelRouter None None) !! "PREMIUM"%string = None /\
  is_inherited_key "PREMIUM" = false /\
  getModelInfo (new_ModelRouter None None) "PREMIUM" = Normal Undefined.
Proof.
  split.
  - eexists. split; [reflexivity|].
    apply (proj1 (proj2 (getModelInfo_reads (new_ModelRouter None None) "COMPLEX"))).
    reflexivity.
  - split; [reflexivity|]. split; [reflexivity|].
    apply (proj2 (proj2 (getModelInfo_reads (new_ModelRouter None None) "PREMIUM")));
      reflexivity.
Defined.

(** C4 as stated fails: "PREMIUM" is not one of the three tiers, and
    asking for its configuration returns [undefined]; nothing is raised,
    a ConfigurationError in particular. *)
Lemma getModelInfo_unknown_tier_counterexample :
  ("PREMIUM"%string ∉ Tracker.tier_names) /\
  getModelInfo (new_ModelRouter None None) "PREMIUM" = Normal Undefined /\
  ~ (exists e, getModelInfo (new_ModelRouter None None) "PREMIUM" = Throw e /\
               err_name e = "ConfigurationError"%string).
Proof.
  split; [|split].
  - apply (bool_decide_unpack _). reflexivity.
  - reflexivity.
  - intros (e & H & _). discriminate H.
Qed.

(** C10 as the code has it: when the forced tier is a non-empty string
    for which [models] has no property (so, in a router as constructed,
    any non-empty name other than the three tiers and the members of
    [Object.prototype]), [route] throws the TypeError of reading
    [displayName] of [undefined]; that error is neither a
    ConfigurationError nor the all-models-failed error, no backend is
    invoked and the ledger is as before. *)
Theorem route_unknown_forced_tier r env prompt forceTier :
  truthy forceTier = true ->
  models_get r forceTier = Undefined ->
  route r env prompt (Some forceTier)
  = (Threw undefined_model_error, costTracker r, []) /\
  err_name undefined_model_error <> "ConfigurationError"%string /\
  (forall lastError, undefined_model_error <> all_failed_error lastError).
Proof.
  intros Ht Hm. repeat split; try discriminate.
  unfold route, initial_tier. rewrite Ht. simpl. rewrite Ht.
  unfold turn. rewrite Hm. reflexivity.
Qed.

Lemma route_unknown_forced_tier_witness :
  truthy "PREMIUM" = true /\
  models_get (new_ModelRouter None None) "PREMIUM" = Undefined /\
  route (new_ModelRouter None None) calm_env (lit "What is 2+2?") (Some "PREMIUM"%string)
  = (Threw undefined_model_error, costTracker (new_ModelRouter None None), []) /\
  err_name undefined_model_error <> "ConfigurationError"%string /\
  (forall lastError, undefined_model_error <> all_failed_error lastError).
Proof.
  split; [reflexivity|]. split; [reflexivity|].
  exact (route_unknown_forced_tier (new_ModelRouter None None) calm_env
           (lit "What is 2+2?") "PREMIUM" eq_refl eq_refl).
Defined.

(** C10 as stated fails: the empty string is a [forceTier] outside the
    three tiers, yet [options.forceTier || analysis.tier] then takes the
    classifier's tier, the backend is invoked, the call returns a result
    and a record is appended. *)
Lemma route_empty_forced_tier_counterexample :
  let res := route (new_ModelRouter None None) calm_env (lit "What is 2+2?")
                   (Some ""%string) in
  (""%string ∉ Tracker.tier_names) /\
  (exists result, res.1.1 = Returned result) /\
  res.2 = ["SIMPLE"%string] /\
  List.length (Tracker.requests res.1.2) = 1%nat /\
  List.length (Tracker.requests (costTracker (new_ModelRouter None None))) = 0%nat.
Proof.
  split; [apply (bool_decide_unpack _); reflexivity|].
  vm_compute. split; [eexists; reflexivity|].
  repeat split.
Qed.

End RouterFacts.

(* ===================================================================== *)
(** * Further properties of the classifier *)
(* ===================================================================== *)

Module AnalyzerProps.
Import Js Analyzer.

Lemma estimateTokens_div s : estimateTokens s = (text_length s + 3) / 4.
Proof.
  unfold estimateTokens, Qceiling, Qfloor, Qdiv, Qmult, Qinv, Qopp, inject_Z.
  cbn [Qnum Qden Pos.mul]. rewrite Z.mul_1_r.
  Z.div_mod_to_equations. lia.
Qed.

(** X1: the token estimate is the length divided by four, rounded up: it
    is [(length + 3) / 4] in integers, so four times the estimate exceeds
    the length by at most three. *)
Theorem estimateTokens_ceiling s :
  estimateTokens s = (text_length s + 3) / 4 /\
  4 * estimateTokens s - 3 <= text_length s <= 4 * estimateTokens s.
Proof.
  rewrite estimateTokens_div. split; [reflexivity|].
  Z.div_mod_to_equations. lia.
Qed.

Lemma tier_of_metrics prompt :
  tier (analyze prompt) = determineTier (calculateMetrics prompt).
Proof. reflexivity. Qed.

(** X2: length alone decides for long prompts: more than 2000 code units
    give COMPLEX, more than 800 never SIMPLE. *)
Theorem long_prompt_tier prompt :
  (2000 < text_length prompt -> tier (analyze prompt) = COMPLEX) /\
  (800 < text_length prompt -> tier (analyze prompt) <> SIMPLE).
Proof.
  rewrite tier_of_metrics. unfold determineTier, calculateMetrics.
  cbn [tokens hasCode reasoningLevel complexityScore].
  rewrite estimateTokens_div, !Z.gtb_ltb.
  split; intros H.
  - destruct (calculateComplexity prompt >=? 60); [reflexivity|].
    destruct (detectCode prompt && (assessReasoning prompt >=? 5));
      [reflexivity|].
    destruct (Z.ltb_spec 500 ((text_length prompt + 3) / 4)) as [_|F];
      [reflexivity|].
    exfalso. revert F. Z.div_mod_to_equations. lia.
  - destruct (calculateComplexity prompt >=? 60); [discriminate|].
    destruct (detectCode prompt && (assessReasoning prompt >=? 5));
      [discriminate|].
    destruct (500 <? (text_length prompt + 3) / 4); [discriminate|].
    destruct (calculateComplexity prompt >=? 30); [discriminate|].
    destruct (detectCode prompt); [discriminate|].
    destruct (assessReasoning prompt >=? 3); [discriminate|].
    destruct (Z.ltb_spec 200 ((text_length prompt + 3) / 4)) as [_|F];
      [discriminate|].
    exfalso. revert F. Z.div_mod_to_equations. lia.
Qed.

Lemma long_prompt_tier_witness :
  let prompt := repeat "a"%char 2001 in
  2000 < text_length prompt /\ 800 < text_length prompt /\
  tier (analyze prompt) = COMPLEX /\ tier (analyze prompt) <> SIMPLE.
Proof.
  assert (H1 : 2000 < text_length (repeat "a"%char 2001))
    by (vm_compute; reflexivity).
  assert (H2 : 800 < text_length (repeat "a"%char 2001))
    by (vm_compute; reflexivity).
  split; [exact H1|]. split; [exact H2|]. split.
  - exact (proj1 (long_prompt_tier (repeat "a"%char 2001)) H1).
  - exact (proj2 (long_prompt_tier (repeat "a"%char 2001)) H2).
Defined.

(** X3: a prompt with a code fence and at least five of the reasoning
    keywords is COMPLEX, whatever its length and score. *)
Theorem fenced_code_and_reasoning_is_complex prompt :
  includes prompt (lit "```") = true ->
  5 <= count_keywords reasoningKeywords 1 (toLowerCase prompt) ->
  tier (analyze prompt) = COMPLEX.
Proof.
  intros Hfence Hkw. rewrite tier_of_metrics.
  assert (Hcode : detectCode prompt = true).
  { unfold detectCode, codePatterns. cbn [existsb]. now rewrite Hfence. }
  assert (Hr : 5 <= assessReasoning prompt).
  { unfold assessReasoning.
    pose proof (AnalyzerFacts.split_length_pos prompt). lia. }
  unfold determineTier, calculateMetrics.
  cbn [tokens hasCode reasoningLevel complexityScore].
  rewrite Hcode.
  destruct (calculateComplexity prompt >=? 60); [reflexivity|].
  destruct (Z.geb_spec (assessReasoning prompt) 5); [reflexivity|lia].
Qed.

Lemma fenced_code_and_reasoning_is_complex_witness :
  let prompt :=
    lit "```x``` analyze, explain, compare, evaluate and debug it" in
  includes prompt (lit "```") = true /\
  5 <= count_keywords reasoningKeywords 1 (toLowerCase prompt) /\
  tier (analyze prompt) = COMPLEX.
Proof.
  assert (H1 : includes
                 (lit "```x``` analyze, explain, compare, evaluate and debug it")
                 (lit "```") = true) by reflexivity.
  assert (H2 : 5 <= count_keywords reasoningKeywords 1
                      (toLowerCase
                         (lit "```x``` analyze, explain, compare, evaluate and debug it")))
    by (vm_compute; discriminate).
  split; [exact H1|]. split; [exact H2|].
  exact (fenced_code_and_reasoning_is_complex _ H1 H2).
Defined.

(** X4: the confidence [analyze] reports is decided by the score for
    scores of 60 and more (0.95 from 70 on, 0.85 below); under 60 it is
    0.75 for COMPLEX, 0.90 for MEDIUM with a score of at least 30, 0.92
    for SIMPLE with a score under 25, and 0.75 otherwise. *)
Theorem analyze_confidence prompt :
  let a := analyze prompt in
  let score := complexityScore (metrics a) in
  confidence a
  = if 70 <=? score then 95 # 100
    else if 60 <=? score then 85 # 100
    else match tier a with
         | COMPLEX => 75 # 100
         | MEDIUM => if 30 <=? score then 90 # 100 else 75 # 100
         | SIMPLE => if score <? 25 then 92 # 100 else 75 # 100
         end.
Proof.
  cbv zeta. unfold analyze.
  cbn [confidence tier metrics].
  set (m := calculateMetrics prompt).
  unfold calculateConfidence, determineTier.
  rewrite !Z.geb_leb, !Z.gtb_ltb.
  destruct (Z.leb_spec 70 (complexityScore m)) as [H70|H70].
  { destruct (Z.leb_spec 60 (complexityScore m)); [reflexivity|lia]. }
  destruct (Z.leb_spec 60 (complexityScore m)) as [H60|H60]; [reflexivity|].
  destruct (hasCode m && (5 <=? reasoningLevel m)); [reflexivity|].
  destruct (500 <? tokens m); [reflexivity|].
  destruct (Z.leb_spec 30 (complexityScore m)) as [H30|H30].
  { cbn [tier_eqb andb]. destruct (Z.ltb_spec (complexityScore m) 60);
      [reflexivity|lia]. }
  destruct (hasCode m); [reflexivity|].
  destruct (3 <=? reasoningLevel m); [reflexivity|].
  destruct (200 <? tokens m); reflexivity.
Qed.

(** X5: the explanation is never empty; for a COMPLEX verdict it names at
    least one signal that fired, and for a SIMPLE verdict it is the
    default clause alone. *)
Theorem analyze_reasoning prompt :
  let a := analyze prompt in
  reasoning a <> [] /\
  (tier a = COMPLEX -> ~ In SimpleQuery (reasoning a)) /\
  (tier a = SIMPLE -> reasoning a = [SimpleQuery]).
Proof.
  cbv zeta. unfold analyze. cbn [reasoning tier].
  set (m := calculateMetrics prompt).
  split; [|split].
  - unfold explainDecision.
    destruct (complexityScore m >=? 60), (hasCode m),
      (reasoningLevel m >=? 5), (tokens m >? 500); discriminate.
  - intros Ht. unfold determineTier in Ht. unfold explainDecision.
    destruct (complexityScore m >=? 60), (hasCode m),
      (reasoningLevel m >=? 5), (tokens m >? 500);
      cbn [app andb In] in *; try (intuition discriminate).
    all: exfalso; revert Ht;
      repeat match goal with
             | |- context [if ?c then _ else _] => destruct c
             end; discriminate.
  - intros Ht. unfold determineTier in Ht. unfold explainDecision.
    destruct (complexityScore m >=? 60), (hasCode m),
      (Z.geb_spec (reasoningLevel m) 5), (tokens m >? 500);
      cbn [app andb] in *; try discriminate Ht; try reflexivity.
    all: exfalso; revert Ht;
      destruct (complexityScore m >=? 30); try discriminate;
      destruct (Z.geb_spec (reasoningLevel m) 3); try discriminate; lia.
Qed.

Lemma analyze_reasoning_witness :
  let a := analyze (repeat "a"%char 2001) in
  let b := analyze (lit "hello") in
  tier a = COMPLEX /\ tier b = SIMPLE /\
  ~ In SimpleQuery (reasoning a) /\ reasoning b = [SimpleQuery].
Proof.
  assert (Ha : tier (analyze (repeat "a"%char 2001)) = COMPLEX)
    by (vm_compute; reflexivity).
  assert (Hb : tier (analyze (lit "hello")) = SIMPLE)
    by (vm_compute; reflexivity).
  split; [exact Ha|]. split; [exact Hb|]. split.
  - exact (proj1 (proj2 (analyze_reasoning (repeat "a"%char 2001))) Ha).
  - exact (proj2 (proj2 (analyze_reasoning (lit "hello"))) Hb).
Defined.

(** X6: appending text, whatever it is, never lowers the reasoning level
    nor the number of questions counted. *)
Theorem assessReasoning_monotone s x :
  assessReasoning s <= assessReasoning (s ++ x) /\
  countQuestions s <= countQuestions (s ++ x).
Proof.
  split.
  - apply AnalyzerFacts.assessReasoning_app.
  - apply AnalyzerFacts.countQuestions_app.
Qed.

End AnalyzerProps.

(* ===================================================================== *)
(** * Further properties of the ledger *)
(* ===================================================================== *)

Module TrackerProps.
Import Js Tracker.

Lemma array_length_nil_iff {A : Type} (l : list A) :
  array_length l = 0 <-> l = [].
Proof.
  unfold array_length. destruct l; simpl; split; try easy; lia.
Qed.

(** X7: as soon as one record is successful, the statistics count the
    whole ledger: [totalRequests] is the number of records,
    [successfulRequests] and [failedRequests] are the numbers of
    successful and of failed records, and they add up. *)
Theorem calculateStats_totals t :
  successful t <> [] ->
  let s := calculateStats t in
  totalRequests s = array_length (requests t) /\
  successfulRequests s = array_length (successful t) /\
  failedRequests s = Some (array_length (failed t)) /\
  totalRequests s = successfulRequests s + array_length (failed t).
Proof.
  intros H s.
  destruct (TrackerFacts.calculateStats_counts t H) as (H1 & H2 & H3).
  subst s. rewrite H1, H2, H3. repeat split.
  unfold array_length, successful, failed.
  rewrite (TrackerFacts.filter_split_length
             (fun r => success (entry r)) (requests t)). lia.
Qed.

Lemma calculateStats_totals_witness :
  let t := logRequest (logRequest new_CostTracker failed_attempt)
                      free_attempt in
  successful t <> [] /\
  totalRequests (calculateStats t) = 2 /\
  failedRequests (calculateStats t) = Some 1.
Proof.
  assert (H : successful
                (logRequest (logRequest new_CostTracker failed_attempt)
                            free_attempt) <> []) by discriminate.
  split; [exact H|].
  pose proof (calculateStats_totals _ H) as (H1 & _ & H3 & _).
  split; [exact H1 | exact H3].
Defined.

Lemma successful_log_failure t e :
  success e = false -> successful (logRequest t e) = successful t.
Proof.
  intros H. unfold successful. cbn [requests logRequest].
  rewrite List.filter_app. cbn [List.filter entry]. rewrite H.
  apply app_nil_r.
Qed.

(** X8: logging a failed attempt changes no amount: the successful count,
    the costs, the savings, the multiplier, the average, the token totals
    and the breakdown by tier are what they were. *)
Theorem failed_record_leaves_costs t e :
  success e = false ->
  let s := calculateStats t in
  let s' := calculateStats (logRequest t e) in
  successfulRequests s' = successfulRequests s /\
  totalCost s' = totalCost s /\
  baselineCost s' = baselineCost s /\
  savings s' = savings s /\
  savingsPercent s' = savingsPercent s /\
  savingsMultiplier s' = savingsMultiplier s /\
  avgCostPerRequest s' = avgCostPerRequest s /\
  totalInputTokens s' = totalInputTokens s /\
  totalOutputTokens s' = totalOutputTokens s /\
  costByTier s' = costByTier s /\
  requestsByTier s' = requestsByTier s.
Proof.
  intros H. cbv zeta. unfold calculateStats.
  fold (successful (logRequest t e)). fold (successful t).
  rewrite (successful_log_failure t e H).
  cbn [baselineModel logRequest].
  destruct (array_length (successful t) =? 0); repeat split.
Qed.

Lemma failed_record_leaves_costs_witness :
  let t := logRequest new_CostTracker free_attempt in
  success failed_attempt = false /\
  totalCost (calculateStats (logRequest t failed_attempt))
  = totalCost (calculateStats t) /\
  costByTier (calculateStats (logRequest t failed_attempt))
  = costByTier (calculateStats t).
Proof.
  split; [reflexivity|].
  pose proof (failed_record_leaves_costs
                (logRequest new_CostTracker free_attempt) failed_attempt
                eq_refl) as H.
  cbv zeta in H. destruct H as (_ & H2 & _ & _ & _ & _ & _ & _ & _ & H10 & _).
  split; [exact H2 | exact H10].
Defined.

(** X9: for a limit of at least one, [getRecentRequests] returns the end
    of the ledger, in ledger order and as long as the limit allows; a
    negative limit returns the ledger without its first [-limit]
    records. *)
Theorem getRecentRequests_limit t limit :
  (1 <= limit ->
   getRecentRequests t limit
   = drop (Z.to_nat (array_length (requests t) - limit)) (requests t) /\
   getRecentRequests t limit `suffix_of` requests t /\
   array_length (getRecentRequests t limit)
   = Z.min limit (array_length (requests t))) /\
  (limit < 0 ->
   getRecentRequests t limit = drop (Z.to_nat (- limit)) (requests t)).
Proof.
  unfold getRecentRequests, slice_from, array_length. split; intros H.
  - destruct (Z.ltb_spec (- limit) 0) as [_|F]; [|lia].
    assert (E : Z.to_nat (Z.max (Z.of_nat (List.length (requests t))
                                 + - limit) 0)
                = Z.to_nat (Z.of_nat (List.length (requests t)) - limit))
      by lia.
    rewrite E. split; [reflexivity|]. split.
    + apply suffix_drop.
    + rewrite length_drop. lia.
  - destruct (Z.ltb_spec (- limit) 0) as [F|_]; [lia|].
    destruct (Z.min_spec (- limit) (Z.of_nat (List.length (requests t))))
      as [[_ ->]|[Hle ->]]; [reflexivity|].
    rewrite Nat2Z.id, !drop_ge; [reflexivity|lia|lia].
Qed.

Lemma getRecentRequests_limit_witness :
  let t := logRequest (logRequest new_CostTracker failed_attempt)
                      free_attempt in
  1 <= 1 /\ -1 < 0 /\
  List.map id (getRecentRequests t 1) = [2] /\
  List.map id (getRecentRequests t (-1)) = [2].
Proof.
  assert (H1 : 1 <= 1) by lia. assert (H2 : -1 < 0) by lia.
  split; [exact H1|]. split; [exact H2|]. split.
  - rewrite (proj1 (proj1 (getRecentRequests_limit _ 1) H1)). reflexivity.
  - rewrite (proj2 (getRecentRequests_limit _ (-1)) H2). reflexivity.
Defined.

Lemma reachable_baseline t :
  reachable t -> baselineModel t = baselineModel new_CostTracker.
Proof. induction 1; assumption || reflexivity. Qed.

(** X10: [clear] brings a tracker back to the state the constructor left
    it in, so the next record is numbered 1 again. *)
Theorem clear_is_new t :
  reachable t ->
  clear t = new_CostTracker /\
  forall e, requests (logRequest (clear t) e) = [ {| id := 1; entry := e |} ].
Proof.
  intros H. assert (E : clear t = new_CostTracker).
  { unfold clear. now rewrite (reachable_baseline t H). }
  split; [exact E|]. intros e. rewrite E. reflexivity.
Qed.

Lemma clear_is_new_witness :
  let t := logRequest (logRequest new_CostTracker failed_attempt)
                      free_attempt in
  reachable t /\ clear t = new_CostTracker.
Proof.
  assert (R : reachable
                (logRequest (logRequest new_CostTracker failed_attempt)
                            free_attempt)) by (repeat constructor).
  split; [exact R | exact (proj1 (clear_is_new _ R))].
Defined.

(** *** The breakdown by tier *)

Lemma known_tier_split (x : UsageRecord) :
  ((if String.eqb (tier (entry x)) "SIMPLE" then 1 else 0)
   + ((if String.eqb (tier (entry x)) "MEDIUM" then 1 else 0)
      + ((if String.eqb (tier (entry x)) "COMPLEX" then 1 else 0) + 0))
   = if known_tier x then 1 else 0)%nat.
Proof.
  unfold known_tier, tier_names.
  destruct (String.eqb_spec (tier (entry x)) "SIMPLE") as [->|H1];
    [reflexivity|].
  destruct (String.eqb_spec (tier (entry x)) "MEDIUM") as [->|H2];
    [reflexivity|].
  destruct (String.eqb_spec (tier (entry x)) "COMPLEX") as [->|H3];
    [reflexivity|].
  rewrite bool_decide_eq_false_2; [reflexivity|].
  rewrite !elem_of_cons, elem_of_nil. intuition.
Qed.

Lemma filter_by_tier_lengths (l : list UsageRecord) :
  (List.length
     (List.filter (fun r => String.eqb (tier (entry r)) "SIMPLE") l)
   + (List.length
        (List.filter (fun r => String.eqb (tier (entry r)) "MEDIUM") l)
      + (List.length
           (List.filter (fun r => String.eqb (tier (entry r)) "COMPLEX") l)
         + 0))
   = List.length (List.filter known_tier l))%nat.
Proof.
  induction l as [|x l IH]; [reflexivity|].
  pose proof (known_tier_split x) as Hx. cbn [List.filter].
  destruct (String.eqb (tier (entry x)) "SIMPLE"),
    (String.eqb (tier (entry x)) "MEDIUM"),
    (String.eqb (tier (entry x)) "COMPLEX"),
    (known_tier x); cbn [List.length] in *; lia.
Qed.

(** X11: the breakdown has one row for each of the three tier names, and
    its request counts add up to the number of successful records that
    carry one of these names: a successful record of any other tier is in
    the totals and in no row. *)
Theorem costByTier_rows t :
  successful t <> [] ->
  let s := calculateStats t in
  List.map fst (costByTier s) = tier_names /\
  fold_right Z.add 0 (List.map (fun row => ts_requests (snd row))
                               (costByTier s))
  = array_length (List.filter known_tier (successful t)) /\
  array_length (List.filter known_tier (successful t))
  <= successfulRequests s.
Proof.
  intros H s.
  destruct (TrackerFacts.calculateStats_counts t H) as (_ & H2 & _).
  fold s in H2. rewrite H2. subst s.
  unfold calculateStats. fold (successful t).
  destruct (Z.eqb_spec (array_length (successful t)) 0) as [E|_].
  { now apply array_length_nil_iff in E. }
  cbn [costByTier tier_names List.map fst snd ts_requests fold_right].
  split; [reflexivity|]. split.
  - unfold array_length.
    rewrite <- (filter_by_tier_lengths (successful t)). lia.
  - unfold array_length.
    pose proof (List.filter_length_le known_tier (successful t)). lia.
Qed.

Lemma costByTier_rows_witness :
  let t := logRequest new_CostTracker free_attempt in
  successful t <> [] /\
  List.map fst (costByTier (calculateStats t)) = tier_names.
Proof.
  assert (H : successful (logRequest new_CostTracker free_attempt) <> [])
    by discriminate.
  split; [exact H | exact (proj1 (costByTier_rows _ H))].
Defined.

(** *** The report and the dashboard *)

Lemma savingsMultiplier_None t :
  savingsMultiplier (calculateStats t) = None <-> successful t = [].
Proof.
  unfold calculateStats. fold (successful t).
  destruct (Z.eqb_spec (array_length (successful t)) 0) as [E|E];
    cbn [savingsMultiplier].
  - apply array_length_nil_iff in E. now split.
  - split; [discriminate|]. intros F. now apply array_length_nil_iff in F.
Qed.

(** X13: [generateReport] needs a successful record.  On a ledger without
    one -- an empty ledger, one with failures only -- it throws the
    TypeError of calling [toFixed] on the multiplier that
    [calculateStats] left out; with one it returns the report. *)
Theorem generateReport_needs_success t :
  (successful t = [] -> generateReport t = Throw undefined_toFixed_error) /\
  (successful t <> [] -> exists report, generateReport t = Normal report).
Proof.
  unfold generateReport. split; intros H.
  - apply savingsMultiplier_None in H. now rewrite H.
  - destruct (savingsMultiplier (calculateStats t)) eqn:E; [eauto|].
    now apply savingsMultiplier_None in E.
Qed.

Lemma generateReport_needs_success_witness :
  successful new_CostTracker = [] /\
  generateReport new_CostTracker = Throw undefined_toFixed_error /\
  successful (logRequest new_CostTracker free_attempt) <> [] /\
  exists report,
    generateReport (logRequest new_CostTracker free_attempt) = Normal report.
Proof.
  assert (H1 : successful new_CostTracker = []) by reflexivity.
  assert (H2 : successful (logRequest new_CostTracker free_attempt) <> [])
    by discriminate.
  split; [exact H1|]. split.
  - exact (proj1 (generateReport_needs_success new_CostTracker) H1).
  - split; [exact H2|].
    exact (proj2 (generateReport_needs_success _) H2).
Defined.

(** X14: the dashboard shows the statistics and the last five records
    (all of them when there are fewer), oldest first. *)
Theorem getDashboard_recent t :
  let d := getDashboard t in
  stats d = calculateStats t /\
  array_length (recent d) = Z.min 5 (array_length (requests t)) /\
  List.map row_tier (recent d)
  = List.map (fun r => tier (entry r))
             (drop (List.length (requests t) - 5) (requests t)) /\
  List.map row_success (recent d)
  = List.map (fun r => success (entry r))
             (drop (List.length (requests t) - 5) (requests t)).
Proof.
  cbv zeta. unfold getDashboard. cbn [stats recent].
  change (getRecentRequests t 5)
    with (getRecentRequests t (Z.of_nat 5%nat)).
  rewrite (TrackerFacts.getRecentRequests_positive t 5 ltac:(lia)).
  rewrite !List.map_map. cbn [row_tier row_success].
  repeat split. unfold array_length.
  rewrite List.length_map, length_drop. lia.
Qed.

End TrackerProps.

(* ===================================================================== *)
(** * Further properties of the dispatcher *)
(* ===================================================================== *)

Module RouterProps.
Import Js Router.

(** ** What a call leaves in the ledger *)

Section Runs.

Variable r : ModelRouter.
Variable env : Env.
Variable prompt : text.
Variable analysis : Analyzer.Analysis.
Variable startTime : Z.

Let run := run r env prompt analysis startTime.

Lemma failure_logged_record st tier n message st1 :
  failure_logged st tier n message st1 ->
  exists x, Tracker.requests (tracker st1)
            = Tracker.requests (tracker st) ++ [x] /\
            invoked st1 = invoked st ++ [tier] /\
            Tracker.is_failure x /\
            Tracker.tier (Tracker.entry x) = tier /\
            Tracker.attempts (Tracker.entry x) = n /\
            Tracker.error (Tracker.entry x) = message.
Proof.
  intros (e & -> & Ht & Hs & Hc & Hi & Ho & Ha & He).
  eexists. split; [reflexivity|]. split; [reflexivity|].
  split; [repeat split; assumption|]. now repeat split.
Qed.

Lemma failure_logged_failure st tier n model reason message st1 :
  models_get r tier = Own model ->
  executeModel r env n tier model prompt = Rejected reason ->
  read_message reason = Normal message ->
  failure_logged st tier n message st1 ->
  exists x, Tracker.requests (tracker st1)
            = Tracker.requests (tracker st) ++ [x] /\
            invoked st1 = invoked st ++ [tier] /\
            Tracker.tier (Tracker.entry x) = tier /\
            Tracker.error (Tracker.entry x) = message /\
            failure_record r env prompt x.
Proof.
  intros Hm He Hr Hlog.
  destruct (failure_logged_record _ _ _ _ _ Hlog)
    as (x & Hreq & Hinv & Hf & Ht & Ha & Hx).
  exists x. split; [exact Hreq|]. split; [exact Hinv|].
  split; [exact Ht|]. split; [exact Hx|]. split; [exact Hf|].
  exists model, reason. now rewrite Ht, Ha, Hx.
Qed.

(** The records a run appends, against its outcome. *)
Lemma run_ledger tier n st o st' :
  run tier n st o st' ->
  exists recs,
    Tracker.requests (tracker st')
    = Tracker.requests (tracker st) ++ recs /\
    match o with
    | Returned result =>
        exists fails last,
          recs = fails ++ [last] /\
          Forall (failure_record r env prompt) fails /\
          result_logged result last /\
          res_success result = true /\
          res_analysis result = analysis /\
          res_attempts result = n + Tracker.array_length recs
    | Threw e =>
        Forall (failure_record r env prompt) recs /\
        (e = undefined_model_error \/
         (exists t model reason k,
            invoked st'
            = invoked st
              ++ List.map (fun x => Tracker.tier (Tracker.entry x)) recs
              ++ [t] /\
            k = n + Tracker.array_length recs + 1 /\
            models_get r t = Own model /\
            executeModel r env k t model prompt = Rejected reason /\
            read_message reason = Throw e) \/
         exists x,
           last recs = Some x /\
           e = {| err_name := "Error";
                  err_message :=
                    "All models failed. Last error: "
                    +:+ default "undefined"%string
                          (Tracker.error (Tracker.entry x)) |})
    | _ => True
    end.
Proof.
  induction 1 as
    [ tier n st Hm
    | tier n st model response Hm He
    | tier n st model reason e Hm He Hr
    | tier n st model reason message st1 nextTier o st2
        Hm He Hr Hlog Hnext Hn _ IH
    | tier n st model reason message st1 Hm He Hr Hlog Hn ].
  - exists []. rewrite app_nil_r. split; [reflexivity|].
    split; [constructor|]. now left.
  - eexists [_]. split; [reflexivity|].
    exists [], {| Tracker.id :=
                    Tracker.array_length
                      (Tracker.requests (tracker (invoke st tier))) + 1;
                  Tracker.entry :=
                    success_entry env prompt startTime tier model (n + 1)
                                  response |}.
    split; [reflexivity|]. split; [constructor|].
    split; [repeat split|]. split; [reflexivity|]. split; [reflexivity|].
    unfold Tracker.array_length.
    cbn [List.length res_attempts success_result]. lia.
  - exists []. rewrite app_nil_r. split; [reflexivity|].
    split; [constructor|]. right. left.
    exists tier, model, reason, (n + 1).
    split; [reflexivity|].
    split; [unfold Tracker.array_length; cbn [List.length]; lia|].
    now repeat split.
  - destruct (failure_logged_failure _ _ _ _ _ _ _ Hm He Hr Hlog)
      as (x & Hreq & Hinv & Hxt & Hxe & Hx).
    destruct IH as (recs & Hreq' & Ho).
    exists (x :: recs). split.
    { rewrite Hreq', Hreq, <- app_assoc. reflexivity. }
    destruct o as [result|e| |]; [| |exact I|exact I].
    + destruct Ho as (fails & lst & -> & Hf & Hl & Hs & Ha & Hn').
      exists (x :: fails), lst. split; [reflexivity|].
      split; [now constructor|]. split; [exact Hl|].
      split; [exact Hs|]. split; [exact Ha|].
      rewrite Hn'. unfold Tracker.array_length. cbn [List.length app].
      lia.
    + destruct Ho as (Hf & He').
      split; [now constructor|].
      destruct He' as [->|[(t & m & rs & k & Hi & Hk & Hm' & He'' & Hr')
                          |(y & Hy & ->)]].
      * now left.
      * right. left. exists t, m, rs, k.
        split.
        { rewrite Hi, Hinv, <- app_assoc. cbn [List.map app].
          now rewrite Hxt. }
        split; [|now repeat split].
        rewrite Hk. unfold Tracker.array_length. cbn [List.length]. lia.
      * right. right. exists y. split; [|reflexivity].
        destruct recs as [|z recs]; [discriminate Hy|exact Hy].
  - destruct (failure_logged_failure _ _ _ _ _ _ _ Hm He Hr Hlog)
      as (x & Hreq & Hinv & Hxt & Hxe & Hx).
    exists [x]. split; [exact Hreq|].
    split; [constructor; [exact Hx|constructor]|].
    right. right. exists x. split; [reflexivity|]. now rewrite Hxe.
Qed.

(** With the three tiers configured, a run that starts at a configured
    tier never reads a missing model. *)
Lemma run_configured tier n st e st' :
  has_tiers r ->
  run tier n st (Threw e) st' ->
  models_get r tier <> Undefined ->
  e <> undefined_model_error.
Proof.
  intros Hr Hrun. remember (Threw e) as o eqn:Eo. revert e Eo.
  induction Hrun as
    [ tier n st Hm
    | tier n st model response Hm He
    | tier n st model reason e' Hm He Hrd
    | tier n st model reason message st1 nextTier o st2
        Hm He Hrd Hlog Hnext Hn _ IH
    | tier n st model reason message st1 Hm He Hrd Hlog Hn ];
    intros e Eo Hcfg.
  - contradiction.
  - discriminate Eo.
  - injection Eo as <-.
    destruct (RouterFacts.read_message_throw _ _ Hrd) as [[_ ->]|[_ ->]];
      discriminate.
  - apply (IH e Eo). unfold next_tier in Hnext. unfold models_get.
    destruct (String.eqb tier "SIMPLE").
    + injection Hnext as <-. destruct (Hr Analyzer.MEDIUM) as [m Hm'].
      cbn in Hm'. now rewrite Hm'.
    + destruct (String.eqb tier "MEDIUM"); [|discriminate Hnext].
      injection Hnext as <-. destruct (Hr Analyzer.COMPLEX) as [m Hm'].
      cbn in Hm'. now rewrite Hm'.
  - injection Eo as <-. discriminate.
Qed.

Lemma chain_from_last tier :
  next_tier tier = None -> chain_from tier = [tier].
Proof.
  unfold next_tier, chain_from.
  destruct (String.eqb tier "SIMPLE"); [discriminate|].
  now destruct (String.eqb tier "MEDIUM").
Qed.

Lemma chain_from_length tier : (List.length (chain_from tier) <= 3)%nat.
Proof.
  unfold chain_from.
  destruct (String.eqb tier "SIMPLE"); [simpl; lia|].
  destruct (String.eqb tier "MEDIUM"); simpl; lia.
Qed.

(** A run that ends with the all-models-failed error went through the
    whole chain of its first tier. *)
Lemma run_all_failed tier n st o st' :
  run tier n st o st' ->
  forall e,
    o = Threw e ->
    err_name e = "Error"%string ->
    n + Z.of_nat (List.length (chain_from tier)) <= 3 ->
    invoked st' = invoked st ++ chain_from tier.
Proof.
  induction 1 as
    [ tier n st Hm
    | tier n st model response Hm He
    | tier n st model reason e' Hm He Hrd
    | tier n st model reason message st1 nextTier o st2
        Hm He Hrd Hlog Hnext Hn _ IH
    | tier n st model reason message st1 Hm He Hrd Hlog Hn ];
    intros e Eo Hname Hlen.
  - injection Eo as <-. discriminate Hname.
  - discriminate Eo.
  - injection Eo as <-.
    destruct (RouterFacts.read_message_throw _ _ Hrd) as [[_ ->]|[_ ->]];
      discriminate Hname.
  - destruct (failure_logged_record _ _ _ _ _ Hlog) as (x & _ & Hinv & _).
    rewrite (RouterFacts.chain_from_next _ _ Hnext) in Hlen |- *.
    cbn [List.length] in Hlen.
    rewrite (IH e Eo Hname ltac:(lia)), Hinv, <- app_assoc. reflexivity.
  - destruct (failure_logged_record _ _ _ _ _ Hlog) as (x & _ & Hinv & _).
    rewrite Hinv. f_equal. destruct Hn as [Hn|Hn].
    + symmetry. now apply chain_from_last.
    + destruct (RouterFacts.chain_from_head tier) as [rest E].
      rewrite E in Hlen |- *. destruct rest; [reflexivity|].
      cbn [List.length] in Hlen. lia.
Qed.

End Runs.

(** ** Whole calls *)

Lemma initial_tier_is_tier forceTier analysis :
  exists t,
    initial_tier (option_map Analyzer.tier_key forceTier) analysis
    = Analyzer.tier_key t.
Proof.
  destruct forceTier as [t|]; cbn [option_map initial_tier].
  - exists t. now destruct t.
  - eauto.
Qed.

Lemma has_tiers_new client tracker : has_tiers (new_ModelRouter client tracker).
Proof. intros []; eexists; reflexivity. Qed.

(** X15: when [route] returns, the ledger has grown by the failure
    records of the attempts that failed -- no cost, no tokens, and as
    error the message of what the backend was rejected with, none when
    that value has no message -- followed by one successful record that
    agrees with the result (tier, model, token counts, cost, duration,
    attempt number); the result's attempt number is the number of
    records the call appended. *)
Theorem route_returned_ledger r env prompt
    (forceTier : option Analyzer.Tier) result :
  let res := route r env prompt (option_map Analyzer.tier_key forceTier) in
  res.1.1 = Returned result ->
  exists fails last,
    Tracker.requests res.1.2
    = Tracker.requests (costTracker r) ++ fails ++ [last] /\
    Forall (failure_record r env prompt) fails /\
    result_logged result last /\
    res_success result = true /\
    res_analysis result = Analyzer.analyze prompt /\
    res_attempts result = Tracker.array_length fails + 1.
Proof.
  intros res Hres.
  destruct (RouterFacts.route_is_run r env prompt
              (option_map Analyzer.tier_key forceTier)
              (RouterFacts.initial_tier_of_tier _ _)) as (Hrun & _).
  fold res in Hrun. rewrite Hres in Hrun.
  destruct (run_ledger _ _ _ _ _ _ _ _ _ _ Hrun)
    as (recs & Hreq & fails & lst & -> & Hf & Hl & Hs & Ha & Hn).
  cbn [tracker] in Hreq. exists fails, lst.
  split; [exact Hreq|]. split; [exact Hf|]. split; [exact Hl|].
  split; [exact Hs|]. split; [exact Ha|].
  rewrite Hn. unfold Tracker.array_length. rewrite List.length_app.
  cbn [List.length]. lia.
Qed.

Lemma route_returned_ledger_witness :
  let res := route (new_ModelRouter None None) rough_env (lit "hello?")
                   (option_map Analyzer.tier_key None) in
  exists result,
    res.1.1 = Returned result /\
    exists fails last,
      Tracker.requests res.1.2
      = Tracker.requests (costTracker (new_ModelRouter None None))
        ++ fails ++ [last] /\
      Forall (failure_record (new_ModelRouter None None) rough_env
                             (lit "hello?")) fails /\
      result_logged result last /\
      res_success result = true /\
      res_analysis result = Analyzer.analyze (lit "hello?") /\
      res_attempts result = Tracker.array_length fails + 1.
Proof.
  eexists. split; [vm_compute; reflexivity|].
  apply (route_returned_ledger (new_ModelRouter None None) rough_env
           (lit "hello?") None).
  vm_compute. reflexivity.
Defined.

(** X16: when [route] throws on a router that has the three tiers, one
    of two things happened.  Either every tier from the first one up to
    COMPLEX was tried, each attempt left a failure record, and the error
    is an [Error] whose text is "All models failed. Last error: "
    followed by the message logged in the last record ([undefined] when
    it has none).  Or the backend of the tier tried last was rejected
    with [undefined] or [null]: the error is the TypeError of reading its
    message, the earlier attempts left their failure records and the last
    one left none. *)
Theorem route_threw_ledger r env prompt
    (forceTier : option Analyzer.Tier) e :
  let forced := option_map Analyzer.tier_key forceTier in
  let res := route r env prompt forced in
  has_tiers r ->
  res.1.1 = Threw e ->
  (exists fails last,
     Tracker.requests res.1.2
     = Tracker.requests (costTracker r) ++ fails ++ [last] /\
     Forall (failure_record r env prompt) (fails ++ [last]) /\
     err_name e = "Error"%string /\
     err_message e
     = ("All models failed. Last error: "
        +:+ default "undefined" (Tracker.error (Tracker.entry last)))%string
     /\
     res.2 = chain_from (initial_tier forced (Analyzer.analyze prompt))) \/
  (exists fails t model reason,
     Tracker.requests res.1.2 = Tracker.requests (costTracker r) ++ fails /\
     Forall (failure_record r env prompt) fails /\
     res.2
     = List.map (fun x => Tracker.tier (Tracker.entry x)) fails ++ [t] /\
     models_get r t = Own model /\
     executeModel r env (Tracker.array_length fails + 1) t model prompt
     = Rejected reason /\
     (reason = ThrownUndefined \/ reason = ThrownNull) /\
     err_name e = "TypeError"%string /\
     err_message e
     = ("Cannot read properties of "
        +:+ (if reason is ThrownNull then "null" else "undefined")
        +:+ " (reading 'message')")%string).
Proof.
  intros forced res Hr Hres.
  destruct (RouterFacts.route_is_run r env prompt forced
              (RouterFacts.initial_tier_of_tier _ _)) as (Hrun & _).
  fold res in Hrun. rewrite Hres in Hrun.
  assert (Hcfg : models_get r (initial_tier forced (Analyzer.analyze prompt))
                 <> Undefined).
  { destruct (initial_tier_is_tier forceTier (Analyzer.analyze prompt))
      as [t Ht]. fold forced in Ht. rewrite Ht. unfold models_get.
    destruct (Hr t) as [m ->]. discriminate. }
  pose proof (run_configured _ _ _ _ _ _ _ _ _ _ Hr Hrun Hcfg) as Hne.
  destruct (run_ledger _ _ _ _ _ _ _ _ _ _ Hrun)
    as (recs & Hreq & Hf
        & [->|[(t & m & reason & k & Hi & Hk & Hm & He & Hrd)
              |(x & Hx & ->)]]);
    [contradiction| |]; cbn [tracker invoked app] in *.
  - right. exists recs, t, m, reason. subst k.
    split; [exact Hreq|]. split; [exact Hf|]. split; [exact Hi|].
    split; [exact Hm|]. split; [exact He|].
    destruct (RouterFacts.read_message_throw _ _ Hrd) as [[-> ->]|[-> ->]];
      repeat split; auto.
  - left. apply last_Some in Hx as [fails ->].
    exists fails, x.
    split; [exact Hreq|]. split; [exact Hf|]. split; [reflexivity|].
    split; [reflexivity|].
    pose proof (run_all_failed _ _ _ _ _ _ _ _ _ _ Hrun _ eq_refl eq_refl)
      as Hall.
    cbn [invoked app] in Hall. apply Hall.
    pose proof (chain_from_length
                  (initial_tier forced (Analyzer.analyze prompt))). lia.
Qed.

Lemma route_threw_ledger_witness :
  let env := {| random := fun _ => 0%Q; now := fun n => n |} in
  let r := new_ModelRouter None None in
  let res := route r env (lit "hello?") (option_map Analyzer.tier_key None) in
  has_tiers r /\
  res.1.1
  = Threw {| err_name := "Error";
             err_message :=
               "All models failed. Last error: "
               +:+ "Claude Opus 4.6 temporarily unavailable" |} /\
  res.2 = ["SIMPLE"; "MEDIUM"; "COMPLEX"]%string /\
  List.length (Tracker.requests res.1.2) = 3%nat.
Proof.
  pose proof (route_threw_ledger (new_ModelRouter None None)
                {| random := fun _ => 0%Q; now := fun n => n |}
                (lit "hello?") None _ (has_tiers_new None None) eq_refl)
    as H.
  split; [apply has_tiers_new|].
  destruct H as [(fails & lst & Hreq & _ & Hn & Hm & Hc)
                |(fails & t & m & reason & _ & _ & _ & _ & _ & _ & Hn & _)].
  - split; [reflexivity|]. split; [exact Hc|]. reflexivity.
  - discriminate Hn.
Defined.

(** X17: one [route] call invokes a backend at most three times.  It
    appends exactly one record per invocation, unless it ends in the
    [catch] block with the TypeError of reading the message of
    [undefined] or [null]: the last invocation then leaves no record. *)
Theorem route_at_most_three_attempts r env prompt
    (forceTier : option Analyzer.Tier) :
  let res := route r env prompt (option_map Analyzer.tier_key forceTier) in
  (List.length res.2 <= 3)%nat /\
  ((List.length (Tracker.requests res.1.2)
    = (List.length (Tracker.requests (costTracker r))
       + List.length res.2)%nat /\
    ~ ended_unlogged res.1.1) \/
   (S (List.length (Tracker.requests res.1.2))
    = (List.length (Tracker.requests (costTracker r))
       + List.length res.2)%nat /\
    ended_unlogged res.1.1)).
Proof.
  intros res.
  destruct (RouterFacts.route_is_run r env prompt
              (option_map Analyzer.tier_key forceTier)
              (RouterFacts.initial_tier_of_tier _ _))
    as (_ & _ & (recs & Hreq & Hinv) & Hpre & _).
  fold res in Hreq, Hinv, Hpre. split.
  - apply prefix_length in Hpre.
    pose proof (chain_from_length
                  (initial_tier (option_map Analyzer.tier_key forceTier)
                                (Analyzer.analyze prompt))). lia.
  - rewrite Hreq, List.length_app.
    destruct Hinv as [[-> Hno]|(t & -> & Hun)]; [left|right];
      (split; [|assumption]).
    + now rewrite List.length_map.
    + rewrite List.length_app, List.length_map. cbn [List.length]. lia.
Qed.

Lemma route_at_most_three_attempts_witness :
  let r := new_ModelRouter (Some (rejecting_client ThrownNull)) None in
  let res := route r calm_env (lit "hello?")
                   (option_map Analyzer.tier_key None) in
  List.length res.2 = 1%nat /\
  List.length (Tracker.requests res.1.2) = 0%nat /\
  ended_unlogged res.1.1.
Proof.
  pose proof (route_at_most_three_attempts
                (new_ModelRouter (Some (rejecting_client ThrownNull)) None)
                calm_env (lit "hello?") None) as H.
  split; [reflexivity|]. split; [reflexivity|].
  destruct H as (_ & [(_ & Hno)|(_ & Hun)]); [|exact Hun].
  exfalso. apply Hno. exists "null"%string. split; [auto|reflexivity].
Defined.



(** ** Configuration *)

Lemma turn_set_retries f r env prompt analysis startTime tier n st :
  turn (set_retries f r) env prompt analysis startTime tier n st
  = turn r env prompt analysis startTime tier n st.
Proof.
  unfold turn, models_get, set_retries, with_models. cbn [models].
  rewrite lookup_fmap. destruct (models r !! tier) as [m|]; [|reflexivity].
  cbn [fmap option_fmap option_map]. unfold executeModel.
  cbn [apiClient name]. destruct (apiClient r); reflexivity.
Qed.

Lemma route_loop_set_retries f r env prompt analysis startTime fuel :
  forall tier n lastError st,
    route_loop (set_retries f r) env prompt analysis startTime fuel tier n
               lastError st
    = route_loop r env prompt analysis startTime fuel tier n lastError st.
Proof.
  induction fuel as [|fuel IH]; intros tier n lastError st; [reflexivity|].
  cbn [route_loop]. rewrite turn_set_retries.
  destruct (truthy tier); [|reflexivity].
  destruct (turn r env prompt analysis startTime tier (n + 1) st)
    as [[o|nextTier message|message] st']; try reflexivity.
  apply IH.
Qed.

(** X19: [maxRetries] is never read: two routers that differ in the
    retry budgets of their tiers only route every prompt alike -- same
    outcome, same ledger, same invocations. *)
Theorem route_ignores_maxRetries f r env prompt forceTier :
  route (set_retries f r) env prompt forceTier
  = route r env prompt forceTier.
Proof.
  unfold route. rewrite route_loop_set_retries. reflexivity.
Qed.

(** X20: [setModel] on a tier that exists puts the merged configuration
    under that tier -- the fields given replace the old ones, the others
    stay -- and changes nothing else: the other tiers, the backend client
    and the ledger are as before, and the three tiers stay configured. *)
Theorem setModel_merges r tier config model r' :
  models r !! tier = Some model ->
  setModel r tier config = Some r' ->
  getModelInfo r' tier = Normal (Own (merge model config)) /\
  (forall other, other <> tier ->
                 getModelInfo r' other = getModelInfo r other) /\
  apiClient r' = apiClient r /\
  costTracker r' = costTracker r /\
  (has_tiers r -> has_tiers r').
Proof.
  unfold setModel. intros Hm.
  destruct (String.eqb tier "__proto__"); [discriminate|].
  rewrite Hm. intros [= <-].
  unfold getModelInfo, models_get, with_models. cbn [models].
  split; [now rewrite lookup_insert_eq|].
  split; [intros other Ho; now rewrite lookup_insert_ne|].
  split; [reflexivity|]. split; [reflexivity|].
  intros Hr t. unfold has_tiers in Hr. cbn [models].
  destruct (decide (tier = Analyzer.tier_key t)) as [->|Hne].
  - rewrite lookup_insert_eq. eauto.
  - rewrite lookup_insert_ne by exact Hne. apply Hr.
Qed.

Lemma setModel_merges_witness :
  let r := new_ModelRouter None None in
  let config :=
    {| p_name := None; p_displayName := None;
       p_costPerMInput := Some 0%Q; p_costPerMOutput := Some 0%Q;
       p_maxRetries := None |} in
  exists model r',
    models r !! "SIMPLE"%string = Some model /\
    setModel r "SIMPLE" config = Some r' /\
    getModelInfo r' "SIMPLE" = Normal (Own (merge model config)) /\
    name (merge model config) = "minimax/minimax-01"%string /\
    costPerMInput (merge model config) = 0%Q.
Proof.
  eexists. eexists.
  assert (H1 : models (new_ModelRouter None None) !! "SIMPLE"%string
               = Some {| name := "minimax/minimax-01";
                         displayName := "Minimax M2.5";
                         costPerMInput := 127 # 100;
                         costPerMOutput := 127 # 100;
                         maxRetries := 2 |}) by reflexivity.
  split; [exact H1|]. split; [reflexivity|].
  split; [|split; reflexivity].
  exact (proj1 (setModel_merges (new_ModelRouter None None) "SIMPLE"
                  {| p_name := None; p_displayName := None;
                     p_costPerMInput := Some 0%Q;
                     p_costPerMOutput := Some 0%Q;
                     p_maxRetries := None |} _ _ H1 eq_refl)).
Defined.




(** ** Costs and the demo backend *)

Lemma mockModel_resolved env attempt tier model prompt response :
  mockModel env attempt tier model prompt = Resolved response ->
  input (usage response) = Analyzer.estimateTokens prompt /\
  output (usage response) = input (usage response) / 2 /\
  total (usage response)
  = input (usage response) + output (usage response) /\
  0 <= output (usage response) <= input (usage response).
Proof.
  unfold mockModel.
  destruct (Qlt_le_dec (random env attempt) _); [discriminate|].
  intros [= <-]. cbn [usage input output total].
  change (Qceiling (inject_Z (Analyzer.text_length prompt) / 4))
    with (Analyzer.estimateTokens prompt).
  rewrite AnalyzerProps.estimateTokens_div.
  change (Z.pos (1 * 10)) with 10.
  assert (Hlen : 0 <= Analyzer.text_length prompt)
    by (unfold Analyzer.text_length; lia).
  repeat split; Z.div_mod_to_equations; lia.
Qed.

(** X23: the demo backend fails exactly when its draw is below the
    failure rate of the tier (0.15 for SIMPLE, 0.05 for MEDIUM, 0.01 for
    any other tier), so a draw of 0.15 or more never fails; when it
    answers, it reports the classifier's token estimate as input, half of
    it (rounded down) as output, and their sum as total. *)
Theorem mockModel_usage env attempt tier model prompt :
  ((15 # 100 <= random env attempt)%Q ->
   exists response, mockModel env attempt tier model prompt
                    = Resolved response) /\
  (forall response,
     mockModel env attempt tier model prompt = Resolved response ->
     input (usage response) = Analyzer.estimateTokens prompt /\
     output (usage response) = input (usage response) / 2 /\
     total (usage response)
     = input (usage response) + output (usage response) /\
     0 <= output (usage response) <= input (usage response)) /\
  (forall reason,
     mockModel env attempt tier model prompt = Rejected reason ->
     reason
     = ErrorObject (displayName model +:+ " temporarily unavailable") /\
     (random env attempt < 15 # 100)%Q).
Proof.
  unfold mockModel.
  set (rate := if String.eqb tier "SIMPLE" then 15 # 100
               else if String.eqb tier "MEDIUM" then 5 # 100 else 1 # 100).
  assert (Hrate : (rate <= 15 # 100)%Q).
  { subst rate. destruct (String.eqb tier "SIMPLE"); [discriminate|].
    destruct (String.eqb tier "MEDIUM"); discriminate. }
  destruct (Qlt_le_dec (random env attempt) rate) as [Hlt|Hge].
  - split; [|split].
    + intros H. exfalso. apply (Qlt_irrefl rate).
      eapply Qle_lt_trans; [|exact Hlt]. eapply Qle_trans; eassumption.
    + discriminate.
    + intros reason [= <-]. split; [reflexivity|].
      eapply Qlt_le_trans; eassumption.
  - split; [eauto|]. split; [|discriminate].
    intros response E. apply (mockModel_resolved env attempt tier model).
    unfold mockModel. fold rate.
    destruct (Qlt_le_dec (random env attempt) rate) as [F|_]; [|exact E].
    exfalso. apply (Qlt_irrefl rate). eapply Qle_lt_trans; eassumption.
Qed.

Lemma mockModel_usage_witness :
  let model := {| name := "minimax/minimax-01";
                  displayName := "Minimax M2.5";
                  costPerMInput := 127 # 100;
                  costPerMOutput := 127 # 100;
                  maxRetries := 2 |} in
  (15 # 100 <= random calm_env 1)%Q /\
  exists response,
    mockModel calm_env 1 "SIMPLE" model (lit "What is 2+2?")
    = Resolved response /\
    input (usage response) = 3 /\ output (usage response) = 1.
Proof.
  assert (H : (15 # 100 <= random calm_env 1)%Q) by discriminate.
  split; [exact H|].
  destruct (proj1 (mockModel_usage calm_env 1 "SIMPLE"
                     {| name := "minimax/minimax-01";
                        displayName := "Minimax M2.5";
                        costPerMInput := 127 # 100;
                        costPerMOutput := 127 # 100;
                        maxRetries := 2 |} (lit "What is 2+2?")) H)
    as [response Hr].
  exists response. split; [exact Hr|].
  vm_compute in Hr. injection Hr as <-. split; reflexivity.
Defined.

(** ** The result of a call *)

Section Results.

Variable r : ModelRouter.
Variable env : Env.
Variable prompt : text.
Variable analysis : Analyzer.Analysis.
Variable startTime : Z.

(** A returned result is the one built from the answer of the tier that
    was invoked last. *)
Lemma run_returned tier n st result st' :
  run r env prompt analysis startTime tier n st (Returned result) st' ->
  exists tier' model k response,
    models_get r tier' = Own model /\
    executeModel r env k tier' model prompt = Resolved response /\
    result = success_result env analysis startTime tier' model k response.
Proof.
  intros H. remember (Returned result) as o eqn:Eo. revert result Eo.
  induction H as
    [ tier n st Hm
    | tier n st model response Hm He
    | tier n st model reason e Hm He Hr
    | tier n st model reason message st1 nextTier o st2
        Hm He Hr Hlog Hnext Hn _ IH
    | tier n st model reason message st1 Hm He Hr Hlog Hn ];
    intros result Eo.
  - discriminate Eo.
  - injection Eo as <-. eauto 8.
  - discriminate Eo.
  - now apply IH.
  - discriminate Eo.
Qed.

End Results.



(** X25: with the demo backend (no client given), the input tokens of a
    result are the token estimate of the classifier's analysis carried
    in the same result, and the output tokens are half of them, rounded
    down. *)
Theorem route_demo_tokens r env prompt (forceTier : option Analyzer.Tier)
    result :
  let res := route r env prompt (option_map Analyzer.tier_key forceTier) in
  apiClient r = None ->
  res.1.1 = Returned result ->
  input (res_usage result)
  = Analyzer.tokens (Analyzer.metrics (res_analysis result)) /\
  output (res_usage result) = input (res_usage result) / 2 /\
  total (res_usage result)
  = input (res_usage result) + output (res_usage result).
Proof.
  intros res Hc Hres.
  destruct (RouterFacts.route_is_run r env prompt
              (option_map Analyzer.tier_key forceTier)
              (RouterFacts.initial_tier_of_tier _ _)) as (Hrun & _).
  fold res in Hrun. rewrite Hres in Hrun.
  destruct (run_returned _ _ _ _ _ _ _ _ _ _ Hrun)
    as (tier' & model & k & response & _ & He & ->).
  unfold executeModel in He. rewrite Hc in He.
  destruct (mockModel_resolved _ _ _ _ _ _ He) as (Hi & Ho & Ht & _).
  cbn [res_usage res_analysis success_result].
  split; [exact Hi|]. split; [exact Ho|exact Ht].
Qed.

Lemma route_demo_tokens_witness :
  let r := new_ModelRouter None None in
  let res := route r calm_env (lit "What is 2+2?")
                   (option_map Analyzer.tier_key None) in
  apiClient r = None /\
  exists result,
    res.1.1 = Returned result /\
    input (res_usage result)
    = Analyzer.tokens (Analyzer.metrics (res_analysis result)) /\
    output (res_usage result) = input (res_usage result) / 2 /\
    total (res_usage result)
    = input (res_usage result) + output (res_usage result).
Proof.
  split; [reflexivity|].
  eexists. split; [vm_compute; reflexivity|].
  apply (route_demo_tokens (new_ModelRouter None None) calm_env
           (lit "What is 2+2?") None).
  - reflexivity.
  - vm_compute. reflexivity.
Defined.

End RouterProps.

(* ===================================================================== *)
(** * The classifier and letter case *)
(* ===================================================================== *)

Module AnalyzerCase.
Import Js Analyzer.

Lemma all_code_units_complete c : In c all_code_units.
Proof.
  unfold all_code_units. apply List.in_map_iff.
  exists (nat_of_ascii c). split; [apply ascii_nat_embedding|].
  apply List.in_seq. pose proof (nat_ascii_bounded c). lia.
Qed.

Lemma keeps_class_checked f :
  forallb (keeps_class f) all_code_units = true ->
  forall c, keeps_class f c = true.
Proof.
  intros H c. rewrite List.forallb_forall in H.
  apply H, all_code_units_complete.
Qed.

Lemma lower_char_keeps c : keeps_class lower_char c = true.
Proof. apply keeps_class_checked. vm_compute. reflexivity. Qed.

Lemma canonicalize_keeps c : keeps_class canonicalize c = true.
Proof. apply keeps_class_checked. vm_compute. reflexivity. Qed.

Section Recase.

Variable f : ascii -> ascii.
Hypothesis f_keeps : forall c, keeps_class f c = true.

Lemma f_canon c : canonicalize (f c) = canonicalize c.
Proof.
  pose proof (f_keeps c) as H. unfold keeps_class in H.
  apply andb_true_iff in H as [[H _]%andb_true_iff _].
  now apply Ascii.eqb_eq.
Qed.

Lemma f_lower c : lower_char (f c) = lower_char c.
Proof.
  pose proof (f_keeps c) as H. unfold keeps_class in H.
  apply andb_true_iff in H as [[_ H]%andb_true_iff _].
  now apply Ascii.eqb_eq.
Qed.

Lemma f_mark a c : In a marks -> Ascii.eqb a (f c) = Ascii.eqb a c.
Proof.
  intros Ha. pose proof (f_keeps c) as H. unfold keeps_class in H.
  apply andb_true_iff in H as [_ H]. rewrite List.forallb_forall in H.
  now apply Bool.eqb_prop, H.
Qed.

Lemma canon_recase s : canon (List.map f s) = canon s.
Proof.
  unfold canon. rewrite List.map_map. apply List.map_ext, f_canon.
Qed.

Lemma toLowerCase_recase s : toLowerCase (List.map f s) = toLowerCase s.
Proof.
  unfold toLowerCase. rewrite List.map_map. apply List.map_ext, f_lower.
Qed.

Lemma starts_with_recase p : forall s,
  List.Forall (fun a => In a marks) p ->
  starts_with p (List.map f s) = starts_with p s.
Proof.
  induction p as [|a p IH]; intros s Hp; [reflexivity|].
  apply List.Forall_cons_iff in Hp as [Ha Hp].
  destruct s as [|c s]; [reflexivity|]. cbn [List.map starts_with].
  now rewrite (f_mark a c Ha), (IH s Hp).
Qed.

Lemma includes_recase p : forall s,
  List.Forall (fun a => In a marks) p ->
  includes (List.map f s) p = includes s p.
Proof.
  intros s Hp. induction s as [|c s IH].
  - reflexivity.
  - change (includes (List.map f (c :: s)) p)
      with (starts_with p (List.map f (c :: s))
            || includes (List.map f s) p).
    change (includes (c :: s) p)
      with (starts_with p (c :: s) || includes s p).
    now rewrite (starts_with_recase p (c :: s) Hp), IH.
Qed.

Lemma existsb_mark_recase a s :
  In a marks ->
  existsb (Ascii.eqb a) (List.map f s) = existsb (Ascii.eqb a) s.
Proof.
  intros Ha. induction s as [|c s IH]; [reflexivity|].
  cbn [List.map existsb]. now rewrite (f_mark a c Ha), IH.
Qed.

Lemma test_brace_block_recase s :
  test_brace_block (List.map f s) = test_brace_block s.
Proof.
  induction s as [|c s IH]; [reflexivity|].
  cbn [List.map test_brace_block].
  rewrite (Ascii.eqb_sym (f c)), (Ascii.eqb_sym c).
  rewrite (f_mark "{" c), (existsb_mark_recase "}"), IH;
    [reflexivity| |]; cbn; tauto.
Qed.

Lemma test_word_i_recase w s :
  test_word_i w (List.map f s) = test_word_i w s.
Proof. unfold test_word_i. now rewrite canon_recase. Qed.

Lemma detectCode_recase s : detectCode (List.map f s) = detectCode s.
Proof.
  unfold detectCode, codePatterns. cbn [existsb].
  rewrite !test_word_i_recase, test_brace_block_recase.
  rewrite !includes_recase; [reflexivity| |];
    repeat constructor; cbn; tauto.
Qed.

Lemma assessReasoning_recase s :
  assessReasoning (List.map f s) = assessReasoning s.
Proof.
  unfold assessReasoning, split_length.
  now rewrite toLowerCase_recase, canon_recase.
Qed.

Lemma filter_mark_recase a s :
  In a marks ->
  List.length (List.filter (Ascii.eqb a) (List.map f s))
  = List.length (List.filter (Ascii.eqb a) s).
Proof.
  intros Ha. induction s as [|c s IH]; [reflexivity|].
  cbn [List.map List.filter]. rewrite (f_mark a c Ha).
  destruct (Ascii.eqb a c); cbn [List.length]; now rewrite IH.
Qed.

Lemma countQuestions_recase s :
  countQuestions (List.map f s) = countQuestions s.
Proof.
  rewrite !AnalyzerFacts.countQuestions_filter.
  rewrite (filter_mark_recase "?"); [reflexivity|cbn; tauto].
Qed.

Lemma runs_recase (inset : ascii -> bool) :
  (forall c, inset (f c) = inset c) ->
  forall s cur cur',
    (cur = [] <-> cur' = []) ->
    List.length (runs inset cur (List.map f s))
    = List.length (runs inset cur' s).
Proof.
  intros Hin. induction s as [|c s IH]; intros cur cur' Hc.
  - cbn [List.map runs]. destruct cur, cur'; try reflexivity.
    + destruct Hc as [Hc _]. discriminate (Hc eq_refl).
    + destruct Hc as [_ Hc]. discriminate (Hc eq_refl).
  - cbn [List.map runs]. rewrite Hin. destruct (inset c).
    + apply IH. split; discriminate.
    + destruct cur, cur'.
      * now apply IH.
      * destruct Hc as [Hc _]. discriminate (Hc eq_refl).
      * destruct Hc as [_ Hc]. discriminate (Hc eq_refl).
      * cbn [List.length]. f_equal. now apply IH.
Qed.

Lemma countSentences_recase s :
  countSentences (List.map f s) = countSentences s.
Proof.
  unfold countSentences, match_all_runs.
  set (terminator := fun c : ascii =>
         Ascii.eqb c "." || Ascii.eqb c "!" || Ascii.eqb c "?").
  assert (H : List.length (runs terminator [] (List.map f s))
              = List.length (runs terminator [] s)).
  { apply runs_recase; [|tauto]. intros c. unfold terminator.
    rewrite !(Ascii.eqb_sym (f c)), !(Ascii.eqb_sym c).
    rewrite !f_mark; [reflexivity| | |]; cbn; tauto. }
  destruct (runs terminator [] (List.map f s)),
    (runs terminator [] s); cbn [or_empty] in *; congruence.
Qed.

Lemma calculateMetrics_recase s :
  calculateMetrics (List.map f s) = calculateMetrics s.
Proof.
  unfold calculateMetrics, calculateComplexity, estimateTokens, text_length.
  rewrite detectCode_recase, assessReasoning_recase, countQuestions_recase,
    countSentences_recase, toLowerCase_recase, List.length_map.
  reflexivity.
Qed.

End Recase.

(** X26: the analysis does not depend on letter case: the prompt in lower
    case, and the prompt in upper case, get the same tier, metrics,
    confidence and explanation as the prompt itself. *)
Theorem analyze_ignores_case prompt :
  analyze (toLowerCase prompt) = analyze prompt /\
  analyze (canon prompt) = analyze prompt.
Proof.
  unfold analyze, toLowerCase, canon.
  rewrite (calculateMetrics_recase lower_char lower_char_keeps),
    (calculateMetrics_recase canonicalize canonicalize_keeps).
  split; reflexivity.
Qed.

End AnalyzerCase.
